(** * Country threat assessment: scoring model and SQLite repository

    A shallow embedding of [main.py]: the [CountryData] scoring methods, the
    [DatabaseHandler] statements and the validation done by
    [CountryRiskApp.add_country], with the properties the specification
    states about them.

    Python [float] is IEEE 754 binary64.  It is modelled with the Standard
    Library's executable specification [spec_float] at precision 53 and
    maximal exponent 1024, so every rounding of the program is in the model.
    Python [int] is [Z], Python [str] is [string] (one [ascii] per code
    point, so the model covers the code points below 256). *)

From Stdlib Require Import ZArith QArith Qabs Bool String Ascii List Lia.
From Stdlib Require Import Floats.SpecFloat.
From Stdlib Require Import FMapPositive Sorted.
From stdpp Require Import base option list strings countable.

Local Open Scope string_scope.
Local Open Scope list_scope.
Local Open Scope Z_scope.

(** ** Exceptions and results *)

Inductive exn : Type :=
| ZeroDivisionError
| OverflowError
| KeyError (key : string).

Inductive result (A : Type) : Type :=
| Ok (a : A)
| Raise (e : exn).

Arguments Ok {A} a.
Arguments Raise {A} e.

#[global] Instance result_ret : MRet result := fun _ a => Ok a.
#[global] Instance result_bind : MBind result := fun _ _ f m =>
  match m with
  | Ok a => f a
  | Raise e => Raise e
  end.

(** ** Python floats *)

Module PyFloat.

Definition float : Type := spec_float.

Definition prec : Z := 53.
Definition emax : Z := 1024.

Definition add : float -> float -> float := SFadd prec emax.
Definition sub : float -> float -> float := SFsub prec emax.
Definition mul : float -> float -> float := SFmul prec emax.
Definition div : float -> float -> float := SFdiv prec emax.
Definition leb : float -> float -> bool := SFleb.
Definition ltb : float -> float -> bool := SFltb.
Definition eqb : float -> float -> bool := SFeqb.

(** A Python integer as the unrounded pair (mantissa, exponent 0); the
    operations below round it. *)
Definition of_int_exact (z : Z) : float :=
  match z with
  | Z0 => S754_zero false
  | Zpos p => S754_finite false p 0
  | Zneg p => S754_finite true p 0
  end.

(** [float(z)]: the integer rounded to nearest, ties to even. *)
Definition of_int (z : Z) : float := binary_normalize prec emax z 0 false.

(** A decimal literal [n / 10^k] denotes the double nearest to that
    rational: the correctly rounded quotient of the two integers. *)
Definition literal (n : Z) (k : nat) : float :=
  div (of_int_exact n) (of_int_exact (10 ^ Z.of_nat k)).

Definition is_finite (x : float) : bool :=
  match x with
  | S754_zero _ | S754_finite _ _ _ => true
  | _ => false
  end.

(** [a / b] on Python integers: the correctly rounded quotient,
    [ZeroDivisionError] for a zero divisor and [OverflowError] when the
    rounded quotient is not a finite double. *)
Definition int_truediv (a b : Z) : result float :=
  if b =? 0 then Raise ZeroDivisionError
  else
    let q := div (of_int_exact a) (of_int_exact b) in
    if is_finite q then Ok q else Raise OverflowError.

(** The exact rational value of a finite double. *)
Definition to_Q (x : float) : Q :=
  match x with
  | S754_finite s m e =>
      let v := (inject_Z (Zpos m) * Qpower 2 e)%Q in
      if s then Qopp v else v
  | _ => 0%Q
  end.

(** The builtin [sum] over floats: left to right from the integer 0,
    whose first addition [0 + x] is [0.0 + x]. *)
Definition sum (l : list float) : float :=
  fold_left add l (S754_zero false).

(** [sum] as CPython 3.12 and later compute it: an integer accumulator until
    the first item that is not an integer, which is added to it with [+];
    from then on Neumaier's compensated summation on the pair of the running
    sum [f_result] and the compensation [c]. *)
Inductive sum_state : Type :=
| IntAcc (i_result : Z)
| FloatAcc (f_result c : float).

Definition sum_step (st : sum_state) (x : float) : sum_state :=
  match st with
  | IntAcc i_result => FloatAcc (add (of_int i_result) x) (S754_zero false)
  | FloatAcc f_result c =>
      let t := add f_result x in
      let c' :=
        if leb (SFabs x) (SFabs f_result)
        then add c (add (sub f_result t) x)
        else add c (add (sub x t) f_result) in
      FloatAcc t c'
  end.

Definition sum_finish (st : sum_state) : float :=
  match st with
  | IntAcc i_result => of_int i_result
  | FloatAcc f_result c =>
      if negb (eqb c (S754_zero false)) && is_finite c
      then add f_result c
      else f_result
  end.

Definition sum_compensated (l : list float) : float :=
  sum_finish (fold_left sum_step l (IntAcc 0)).

End PyFloat.

Abbreviation float := PyFloat.float.

(** ** The data model *)

Record PoliticalStabilityMetrics : Type := {
  government_legitimacy : Z;
  political_violence : Z;
  institutional_strength : Z;
  leadership_stability : Z
}.

Record SecurityEnvironmentMetrics : Type := {
  internal_conflict : Z;
  regional_security : Z;
  law_enforcement : Z;
  military_factors : Z
}.

Record EconomicStabilityMetrics : Type := {
  economic_performance : Z;
  fiscal_health : Z;
  trade_dependencies : Z;
  infrastructure_resilience : Z
}.

Record SocialIndicatorsMetrics : Type := {
  social_cohesion : Z;
  human_development : Z;
  demographic_pressures : Z;
  information_environment : Z
}.

Record IllicitMarketsMetrics : Type := {
  drug_trade : Z;
  human_trafficking : Z;
  arms_trafficking : Z;
  financial_crimes : Z;
  cybercrime_operations : Z;
  state_response_capacity : Z
}.

Record CountryData : Type := {
  name : string;
  political_stability : PoliticalStabilityMetrics;
  security_environment : SecurityEnvironmentMetrics;
  economic_stability : EconomicStabilityMetrics;
  social_indicators : SocialIndicatorsMetrics;
  illicit_markets : IllicitMarketsMetrics;
  key_risk_factors : string;
  trend_analysis : string;
  recommendations : string
}.

(** A dictionary with string keys, in insertion order. *)
Definition dict (V : Type) : Type := list (string * V).

Fixpoint dict_get {V : Type} (d : dict V) (key : string) : option V :=
  match d with
  | [] => None
  | (k, v) :: d' => if String.eqb k key then Some v else dict_get d' key
  end.

(** [d[key]] *)
Definition dict_item {V : Type} (d : dict V) (key : string) : result V :=
  match dict_get d key with
  | Some v => Ok v
  | None => Raise (KeyError key)
  end.

(** [d.get(key, default)] *)
Definition dict_get_default {V : Type} (d : dict V) (key : string) (default : V) : V :=
  match dict_get d key with
  | Some v => v
  | None => default
  end.

Definition dict_values {V : Type} (d : dict V) : list V := map snd d.

Definition WEIGHTS : dict float :=
  [ ("political_stability", PyFloat.literal 25 2);
    ("security_environment", PyFloat.literal 20 2);
    ("economic_stability", PyFloat.literal 20 2);
    ("social_indicators", PyFloat.literal 15 2);
    ("illicit_markets", PyFloat.literal 20 2) ].

(** The object handed to [calculate_category_score]: one of the five metric
    dataclasses.  [None] stands for a falsy argument (Python's [None]). *)
Inductive Metrics : Type :=
| PoliticalStability (m : PoliticalStabilityMetrics)
| SecurityEnvironment (m : SecurityEnvironmentMetrics)
| EconomicStability (m : EconomicStabilityMetrics)
| SocialIndicators (m : SocialIndicatorsMetrics)
| IllicitMarkets (m : IllicitMarketsMetrics).

(** The values of [__dataclass_fields__], in declaration order. *)
Definition dataclass_field_values (cm : Metrics) : list Z :=
  match cm with
  | PoliticalStability m =>
      [government_legitimacy m; political_violence m;
       institutional_strength m; leadership_stability m]
  | SecurityEnvironment m =>
      [internal_conflict m; regional_security m;
       law_enforcement m; military_factors m]
  | EconomicStability m =>
      [economic_performance m; fiscal_health m;
       trade_dependencies m; infrastructure_resilience m]
  | SocialIndicators m =>
      [social_cohesion m; human_development m;
       demographic_pressures m; information_environment m]
  | IllicitMarkets m =>
      [drug_trade m; human_trafficking m; arms_trafficking m;
       financial_crimes m; cybercrime_operations m; state_response_capacity m]
  end.

Definition int_sum (l : list Z) : Z := fold_left Z.add l 0.

Definition calculate_category_score (category_metrics : option Metrics) : result float :=
  match category_metrics with
  | None => Ok (PyFloat.literal 0 1)
  | Some cm =>
      let scores := dataclass_field_values cm in
      PyFloat.int_truediv (int_sum scores) (Z.of_nat (length scores))
  end.

(** The scoring methods of [CountryData] that go through the builtin [sum],
    for either implementation of it: [PyFloat.sum] or
    [PyFloat.sum_compensated]. *)
Section Scoring.

Variable builtin_sum : list float -> float.

Definition calculate_threat_score (self : CountryData) : result float :=
  let weighted_scores := [] in
  pol_stab_score ← calculate_category_score (Some (PoliticalStability (political_stability self)));
  w ← dict_item WEIGHTS "political_stability";
  let weighted_scores := weighted_scores ++ [PyFloat.mul pol_stab_score w] in
  sec_env_score ← calculate_category_score (Some (SecurityEnvironment (security_environment self)));
  w ← dict_item WEIGHTS "security_environment";
  let weighted_scores := weighted_scores ++ [PyFloat.mul sec_env_score w] in
  econ_stab_score ← calculate_category_score (Some (EconomicStability (economic_stability self)));
  w ← dict_item WEIGHTS "economic_stability";
  let weighted_scores := weighted_scores ++ [PyFloat.mul econ_stab_score w] in
  social_ind_score ← calculate_category_score (Some (SocialIndicators (social_indicators self)));
  w ← dict_item WEIGHTS "social_indicators";
  let weighted_scores := weighted_scores ++ [PyFloat.mul social_ind_score w] in
  illicit_mkt_score ← calculate_category_score (Some (IllicitMarkets (illicit_markets self)));
  w ← dict_item WEIGHTS "illicit_markets";
  let weighted_scores := weighted_scores ++ [PyFloat.mul illicit_mkt_score w] in
  Ok (builtin_sum weighted_scores).

(** The chain of comparisons of [get_threat_level]; [a <= x <= b] is
    [a <= x and x <= b]. *)
Definition threat_level_of_score (score : float) : string :=
  if PyFloat.leb (PyFloat.literal 10 1) score && PyFloat.leb score (PyFloat.literal 20 1)
  then "LOW"
  else if PyFloat.leb (PyFloat.literal 21 1) score && PyFloat.leb score (PyFloat.literal 40 1)
  then "MODERATE"
  else if PyFloat.leb (PyFloat.literal 41 1) score && PyFloat.leb score (PyFloat.literal 60 1)
  then "ELEVATED"
  else if PyFloat.leb (PyFloat.literal 61 1) score && PyFloat.leb score (PyFloat.literal 80 1)
  then "HIGH"
  else if PyFloat.leb (PyFloat.literal 81 1) score && PyFloat.leb score (PyFloat.literal 100 1)
  then "EXTREME"
  else "UNDEFINED".

Definition get_threat_level (self : CountryData) : result string :=
  score ← calculate_threat_score self;
  Ok (threat_level_of_score score).

Definition descriptions : dict string :=
  [ ("LOW", "Stable with minimal risks");
    ("MODERATE", "Some concerns but manageable");
    ("ELEVATED", "Significant risks requiring monitoring");
    ("HIGH", "Serious threats with potential for instability");
    ("EXTREME", "Critical threats with high probability of crisis");
    ("UNDEFINED", "Score out of range.") ].

Definition get_threat_description (self : CountryData) : result string :=
  level ← get_threat_level self;
  Ok (dict_get_default descriptions level "N/A").

Definition colors_map : dict string :=
  [ ("LOW", "#28a745");
    ("MODERATE", "#ffc107");
    ("ELEVATED", "#17a2b8");
    ("HIGH", "#fd7e14");
    ("EXTREME", "#dc3545");
    ("UNDEFINED", "#6c757d") ].

Definition get_threat_color (self : CountryData) : result string :=
  level ← get_threat_level self;
  Ok (dict_get_default colors_map level "#6c757d").

End Scoring.

(** The indicators of a record and the range the data model gives them. *)
Definition indicators (c : CountryData) : list Z :=
  dataclass_field_values (PoliticalStability (political_stability c)) ++
  dataclass_field_values (SecurityEnvironment (security_environment c)) ++
  dataclass_field_values (EconomicStability (economic_stability c)) ++
  dataclass_field_values (SocialIndicators (social_indicators c)) ++
  dataclass_field_values (IllicitMarkets (illicit_markets c)).

Definition valid_indicator (v : Z) : bool := (1 <=? v) && (v <=? 10).

Definition valid_category (cm : Metrics) : bool :=
  forallb valid_indicator (dataclass_field_values cm).

Definition valid_record (c : CountryData) : bool :=
  forallb valid_indicator (indicators c).

(** The exact arithmetic mean of a list of integers. *)
Definition mean (l : list Z) : Q :=
  (inject_Z (int_sum l) / inject_Z (Z.of_nat (length l)))%Q.

(** ** The order on floats

    [SFcompare] orders the floats other than NaN lexicographically by sign,
    exponent and mantissa; every comparison with NaN is false. *)

Ltac float_order_cases :=
  unfold PyFloat.leb, PyFloat.ltb, SFleb, SFltb, SFcompare;
  repeat match goal with
  | x : float |- _ => destruct x as [[|]|[|]| |[|] ? ?]
  | x : spec_float |- _ => destruct x as [[|]|[|]| |[|] ? ?]
  end;
  try reflexivity; try discriminate;
  change (Pos.compare_cont Eq) with Pos.compare;
  repeat match goal with
  | |- context [Z.compare ?a ?b] => destruct (Z.compare_spec a b)
  end;
  try discriminate; try reflexivity; try lia;
  repeat match goal with
  | |- context [Pos.compare ?a ?b] => destruct (Pos.compare_spec a b)
  end;
  simpl; try discriminate; try reflexivity; try lia.

Section FloatOrder.

Implicit Types a b c : float.

Lemma leb_trans a b c :
  PyFloat.leb a b = true -> PyFloat.leb b c = true -> PyFloat.leb a c = true.
Proof. float_order_cases. Qed.

Lemma leb_ltb_trans a b c :
  PyFloat.leb a b = true -> PyFloat.ltb b c = true -> PyFloat.ltb a c = true.
Proof. float_order_cases. Qed.

Lemma ltb_leb_trans a b c :
  PyFloat.ltb a b = true -> PyFloat.leb b c = true -> PyFloat.ltb a c = true.
Proof. float_order_cases. Qed.

Lemma ltb_not_leb a b :
  PyFloat.ltb a b = true -> PyFloat.leb b a = false.
Proof. float_order_cases. Qed.

Lemma ltb_leb a b :
  PyFloat.ltb a b = true -> PyFloat.leb a b = true.
Proof. float_order_cases. Qed.

Lemma leb_nan_l a : PyFloat.leb S754_nan a = false.
Proof. reflexivity. Qed.

Lemma leb_nan_r a : PyFloat.leb a S754_nan = false.
Proof. destruct a; reflexivity. Qed.

End FloatOrder.

(** ** Threat levels *)

Definition in_band (lo hi score : float) : Prop :=
  PyFloat.leb lo score = true /\ PyFloat.leb score hi = true.

Definition LOW_band := in_band (PyFloat.literal 10 1) (PyFloat.literal 20 1).
Definition MODERATE_band := in_band (PyFloat.literal 21 1) (PyFloat.literal 40 1).
Definition ELEVATED_band := in_band (PyFloat.literal 41 1) (PyFloat.literal 60 1).
Definition HIGH_band := in_band (PyFloat.literal 61 1) (PyFloat.literal 80 1).
Definition EXTREME_band := in_band (PyFloat.literal 81 1) (PyFloat.literal 100 1).

(** The open intervals between two consecutive bands. *)
Definition gaps : list (float * float) :=
  [ (PyFloat.literal 20 1, PyFloat.literal 21 1);
    (PyFloat.literal 40 1, PyFloat.literal 41 1);
    (PyFloat.literal 60 1, PyFloat.literal 61 1);
    (PyFloat.literal 80 1, PyFloat.literal 81 1) ].

Lemma in_band_iff lo hi score :
  in_band lo hi score <-> PyFloat.leb lo score && PyFloat.leb score hi = true.
Proof. unfold in_band. rewrite andb_true_iff. tauto. Qed.

(** Two bands that hold a common score overlap. *)
Lemma in_band_overlap lo1 hi1 lo2 hi2 score :
  in_band lo1 hi1 score -> in_band lo2 hi2 score ->
  PyFloat.leb lo2 hi1 = true.
Proof. intros [_ H1] [H2 _]. exact (leb_trans _ _ _ H2 H1). Qed.

Lemma in_band_above lo hi x score :
  in_band lo hi score -> PyFloat.ltb score x = true -> PyFloat.ltb lo x = true.
Proof. intros [H _] Hx. exact (leb_ltb_trans _ _ _ H Hx). Qed.

Lemma in_band_below lo hi x score :
  in_band lo hi score -> PyFloat.ltb x score = true -> PyFloat.ltb x hi = true.
Proof. intros [_ H] Hx. exact (ltb_leb_trans _ _ _ Hx H). Qed.

(** The chain of tests selects the first band that holds the score. *)
Lemma threat_level_of_score_cases (score : float) :
  (LOW_band score /\ threat_level_of_score score = "LOW") \/
  (MODERATE_band score /\ threat_level_of_score score = "MODERATE") \/
  (ELEVATED_band score /\ threat_level_of_score score = "ELEVATED") \/
  (HIGH_band score /\ threat_level_of_score score = "HIGH") \/
  (EXTREME_band score /\ threat_level_of_score score = "EXTREME") \/
  ((~ LOW_band score /\ ~ MODERATE_band score /\ ~ ELEVATED_band score /\
    ~ HIGH_band score /\ ~ EXTREME_band score) /\
   threat_level_of_score score = "UNDEFINED").
Proof.
  unfold LOW_band, MODERATE_band, ELEVATED_band, HIGH_band, EXTREME_band,
    threat_level_of_score.
  rewrite !in_band_iff.
  repeat match goal with
  | |- context [if ?b then _ else _] =>
      destruct b eqn:?; [ tauto | ]
  end.
  repeat right. repeat split; congruence.
Qed.

Ltac band_clash :=
  match goal with
  | H1 : in_band _ _ ?x, H2 : in_band _ _ ?x |- _ =>
      first [ pose proof (in_band_overlap _ _ _ _ _ H1 H2) as Hc;
              vm_compute in Hc; discriminate Hc
            | pose proof (in_band_overlap _ _ _ _ _ H2 H1) as Hc;
              vm_compute in Hc; discriminate Hc ]
  end.

Ltac gap_clash :=
  match goal with
  | Hb : in_band _ _ ?x, Hlt : PyFloat.ltb ?x _ = true |- _ =>
      pose proof (in_band_above _ _ _ _ Hb Hlt) as Hc;
      vm_compute in Hc; discriminate Hc
  | Hb : in_band _ _ ?x, Hlt : PyFloat.ltb _ ?x = true |- _ =>
      pose proof (in_band_below _ _ _ _ Hb Hlt) as Hc;
      vm_compute in Hc; discriminate Hc
  end.

(** C1: the level of a score is LOW, MODERATE, ELEVATED, HIGH or EXTREME
    exactly when the score lies in the closed band [1.0,2.0], [2.1,4.0],
    [4.1,6.0], [6.1,8.0] or [8.1,10.0], and UNDEFINED exactly when it lies in
    none of them; in particular a score strictly inside a gap between two
    bands, below 1.0 or above 10.0 is UNDEFINED. *)
Theorem threat_level_bands (score : float) :
  (threat_level_of_score score = "LOW" <-> LOW_band score) /\
  (threat_level_of_score score = "MODERATE" <-> MODERATE_band score) /\
  (threat_level_of_score score = "ELEVATED" <-> ELEVATED_band score) /\
  (threat_level_of_score score = "HIGH" <-> HIGH_band score) /\
  (threat_level_of_score score = "EXTREME" <-> EXTREME_band score) /\
  (threat_level_of_score score = "UNDEFINED" <->
     ~ LOW_band score /\ ~ MODERATE_band score /\ ~ ELEVATED_band score /\
     ~ HIGH_band score /\ ~ EXTREME_band score) /\
  (forall hi lo, In (hi, lo) gaps ->
     PyFloat.ltb hi score = true -> PyFloat.ltb score lo = true ->
     threat_level_of_score score = "UNDEFINED") /\
  (PyFloat.ltb score (PyFloat.literal 10 1) = true ->
     threat_level_of_score score = "UNDEFINED") /\
  (PyFloat.ltb (PyFloat.literal 100 1) score = true ->
     threat_level_of_score score = "UNDEFINED").
Proof.
  destruct (threat_level_of_score_cases score)
    as [[Hb ->]|[[Hb ->]|[[Hb ->]|[[Hb ->]|[[Hb ->]|[Hb ->]]]]]].
  6: { repeat split; intros; try discriminate; tauto. }
  all: unfold LOW_band, MODERATE_band, ELEVATED_band, HIGH_band, EXTREME_band
         in *.
  all: repeat match goal with |- _ /\ _ => split end.
  all: try (split; intros; first [ discriminate | band_clash ]).
  all: try (split; intros; first [ reflexivity | assumption ]).
  all: try (split; [ discriminate | tauto ]).
  all: try (intros H; exfalso; gap_clash).
  all: intros hi lo Hin Hhi Hlo; exfalso; unfold gaps in Hin; cbn [In] in Hin.
  all: repeat (destruct Hin as [Hin|Hin];
               [ apply pair_equal_spec in Hin as [<- <-];
                 first [ gap_clash | idtac ] | ]);
       try contradiction.
Qed.

(** The boundary table of the specification: 2.0 is LOW, 2.05 falls in the
    gap, 2.1 is MODERATE, 10.0 is EXTREME, 0.5 is below every band. *)
Lemma threat_level_bands_witness :
  threat_level_of_score (PyFloat.literal 205 2) = "UNDEFINED" /\
  threat_level_of_score (PyFloat.literal 5 1) = "UNDEFINED" /\
  threat_level_of_score (PyFloat.literal 105 1) = "UNDEFINED" /\
  threat_level_of_score (PyFloat.literal 20 1) = "LOW" /\
  threat_level_of_score (PyFloat.literal 21 1) = "MODERATE" /\
  threat_level_of_score (PyFloat.literal 100 1) = "EXTREME".
Proof.
  split.
  { destruct (threat_level_bands (PyFloat.literal 205 2))
      as (_ & _ & _ & _ & _ & _ & Hgap & _ & _).
    apply (Hgap (PyFloat.literal 20 1) (PyFloat.literal 21 1)).
    - left. reflexivity.
    - vm_compute. reflexivity.
    - vm_compute. reflexivity. }
  split.
  { destruct (threat_level_bands (PyFloat.literal 5 1))
      as (_ & _ & _ & _ & _ & _ & _ & Hbelow & _).
    apply Hbelow. vm_compute. reflexivity. }
  split.
  { destruct (threat_level_bands (PyFloat.literal 105 1))
      as (_ & _ & _ & _ & _ & _ & _ & _ & Habove).
    apply Habove. vm_compute. reflexivity. }
  split.
  { destruct (threat_level_bands (PyFloat.literal 20 1)) as (H & _).
    apply H. split; vm_compute; reflexivity. }
  split.
  { destruct (threat_level_bands (PyFloat.literal 21 1)) as (_ & H & _).
    apply H. split; vm_compute; reflexivity. }
  destruct (threat_level_bands (PyFloat.literal 100 1))
    as (_ & _ & _ & _ & H & _).
  apply H. split; vm_compute; reflexivity.
Defined.

(** NaN and the infinities compare false with every bound. *)
Lemma threat_level_of_score_not_finite :
  threat_level_of_score S754_nan = "UNDEFINED" /\
  threat_level_of_score (S754_infinity false) = "UNDEFINED" /\
  threat_level_of_score (S754_infinity true) = "UNDEFINED".
Proof. repeat split; vm_compute; reflexivity. Qed.

(** ** The weight table *)

(** C7: the five weights 0.25, 0.20, 0.20, 0.15 and 0.20, added in the order
    of the table, give exactly the double 1.0, with the left-to-right [sum]
    and with the compensated one. *)
Theorem weights_sum_to_one :
  map snd WEIGHTS =
    [PyFloat.literal 25 2; PyFloat.literal 20 2; PyFloat.literal 20 2;
     PyFloat.literal 15 2; PyFloat.literal 20 2] /\
  PyFloat.sum (dict_values WEIGHTS) = PyFloat.literal 10 1 /\
  PyFloat.sum_compensated (dict_values WEIGHTS) = PyFloat.literal 10 1.
Proof. repeat split; vm_compute; reflexivity. Qed.

(** ** Reachable scores

    A category score depends on its indicators through their sum only, so
    the weighted score of a category whose indicators lie in [1,10] takes one
    value per sum.  The partial sums of [sum] over the five weighted scores
    are enumerated as finite sets. *)

#[global] Instance spec_float_eq_dec : EqDecision spec_float.
Proof. solve_decision. Defined.

#[global] Instance spec_float_countable : Countable spec_float.
Proof.
  refine (inj_countable'
    (fun x : spec_float =>
       match x with
       | S754_zero s => inl (inl s)
       | S754_infinity s => inl (inr s)
       | S754_nan => inr (inl ())
       | S754_finite s m e => inr (inr (s, m, e))
       end)
    (fun y : (bool + bool) + (unit + bool * positive * Z) =>
       match y with
       | inl (inl s) => S754_zero s
       | inl (inr s) => S754_infinity s
       | inr (inl _) => S754_nan
       | inr (inr (s, m, e)) => S754_finite s m e
       end) _).
  intros []; reflexivity.
Defined.

(** Finite sets of countable values as binary tries over the codes of the
    values; each code maps to its value. *)
Section CodeSets.

Context {A : Type} `{Countable A}.

Definition cset : Type := PositiveMap.t A.

Definition cset_add (x : A) (S : cset) : cset := PositiveMap.add (encode x) x S.

Definition cset_elements (S : cset) : list A := map snd (PositiveMap.elements S).

Definition cset_singleton (x : A) : cset := cset_add x (PositiveMap.empty A).

Definition cset_mem (x : A) (S : cset) : Prop :=
  PositiveMap.find (encode x) S = Some x.

(** The states reached from the states of [P] by one step on an item of
    [V]. *)
Definition extend {B : Type} (step : A -> B -> A) (P : cset) (V : list B) : cset :=
  fold_left
    (fun acc a => fold_left (fun acc b => cset_add (step a b) acc) V acc)
    (cset_elements P) (PositiveMap.empty A).

Definition cset_forallb (f : A -> bool) (S : cset) : bool :=
  forallb f (cset_elements S).

End CodeSets.

Arguments cset A : clear implicits.

Section CodeSetFacts.

Context {A : Type} `{Countable A}.

Implicit Types (x y : A) (S : cset A).

Lemma cset_mem_add x S : cset_mem x (cset_add x S).
Proof. apply PositiveMap.gss. Qed.

Lemma cset_mem_add_mono x y S : cset_mem y S -> cset_mem y (cset_add x S).
Proof.
  unfold cset_mem, cset_add. intros Hy.
  destruct (decide (encode x = encode y)) as [Heq|Hne].
  - apply (inj encode) in Heq. subst y. apply PositiveMap.gss.
  - rewrite PositiveMap.gso by congruence. exact Hy.
Qed.

Lemma cset_mem_elements x S : cset_mem x S -> In x (cset_elements S).
Proof.
  intros Hx. apply PositiveMap.elements_correct in Hx.
  unfold cset_elements. change x with (snd (encode x, x)).
  apply in_map. exact Hx.
Qed.

Lemma cset_forallb_mem (f : A -> bool) S x :
  cset_forallb f S = true -> cset_mem x S -> f x = true.
Proof.
  unfold cset_forallb. rewrite forallb_forall.
  intros Hall Hx. apply Hall, cset_mem_elements, Hx.
Qed.

Section Extend.

Context {B : Type} (step : A -> B -> A).

Lemma extend_row_mono a (V : list B) S y :
  cset_mem y S ->
  cset_mem y (fold_left (fun acc b => cset_add (step a b) acc) V S).
Proof.
  revert S. induction V as [|b V IH]; intros S Hy; simpl; [exact Hy|].
  apply IH, cset_mem_add_mono, Hy.
Qed.

Lemma extend_row_mem a (V : list B) S b :
  In b V ->
  cset_mem (step a b) (fold_left (fun acc b => cset_add (step a b) acc) V S).
Proof.
  revert S. induction V as [|b' V IH]; intros S Hb; simpl in *; [contradiction|].
  destruct Hb as [->|Hb].
  - apply extend_row_mono, cset_mem_add.
  - apply IH, Hb.
Qed.

Lemma extend_rows_mem (l : list A) (V : list B) S a b :
  In a l -> In b V ->
  cset_mem (step a b)
    (fold_left (fun acc a => fold_left (fun acc b => cset_add (step a b) acc) V acc)
       l S).
Proof.
  intros Ha Hb. revert S. induction l as [|a' l IH]; intros S; simpl in *;
    [contradiction|].
  destruct Ha as [->|Ha].
  - clear IH.
    generalize (extend_row_mem a V S b Hb).
    generalize (fold_left (fun acc b0 => cset_add (step a b0) acc) V S).
    induction l as [|a'' l IH]; intros S' HS'; simpl; [exact HS'|].
    apply IH, extend_row_mono, HS'.
  - apply IH, Ha.
Qed.

Lemma extend_mem P (V : list B) a b :
  cset_mem a P -> In b V -> cset_mem (step a b) (extend step P V).
Proof.
  intros Ha Hb. unfold extend.
  apply extend_rows_mem; [apply cset_mem_elements, Ha|exact Hb].
Qed.

(** Folding [step] over one item of each list of [Vs] stays in the sets
    obtained by extending along [Vs]. *)
Lemma fold_extend_mem (Vs : list (list B)) (xs : list B) P a :
  cset_mem a P ->
  Forall2 (fun (b : B) V => In b V) xs Vs ->
  cset_mem (fold_left step xs a) (fold_left (extend step) Vs P).
Proof.
  intros Ha Hxs. revert P a Ha.
  induction Hxs as [|x V xs Vs Hx _ IH]; intros P a Ha; simpl; [exact Ha|].
  apply IH, extend_mem; assumption.
Qed.

End Extend.

End CodeSetFacts.

(** The weighted scores of a category of [n] indicators in [1,10]. *)
Definition weighted_scores_of (n : Z) (w : float) : list float :=
  map (fun s => PyFloat.mul (PyFloat.div (PyFloat.of_int_exact s) (PyFloat.of_int_exact n)) w)
      (seqZ n (9 * n + 1)).

Definition weight (key : string) : float :=
  dict_get_default WEIGHTS key S754_nan.

Definition score_in_range (x : float) : bool :=
  PyFloat.leb (PyFloat.literal 10 1) x && PyFloat.leb x (PyFloat.literal 100 1).

(** The weighted scores of the first four categories, in the order in which
    [calculate_threat_score] appends them, and those of the fifth. *)
Definition first_four_weighted_scores : list (list float) :=
  [ weighted_scores_of 4 (weight "political_stability");
    weighted_scores_of 4 (weight "security_environment");
    weighted_scores_of 4 (weight "economic_stability");
    weighted_scores_of 4 (weight "social_indicators") ].

Definition fifth_weighted_scores : list float :=
  weighted_scores_of 6 (weight "illicit_markets").

(** A summation loop, given by its start state, its step and the result read
    off its last state, yields a score in [1.0, 10.0] on every choice of one
    weighted score per category.  The check runs over the states reached
    after four categories and the weighted scores of the fifth. *)
Definition sum_loop_in_range {St : Type} `{Countable St}
    (init : St) (step : St -> float -> St) (finish : St -> float) : bool :=
  forallb
    (fun st =>
       forallb (fun x => score_in_range (finish (step st x))) fifth_weighted_scores)
    (cset_elements
       (fold_left (extend step) first_four_weighted_scores (cset_singleton init))).

Lemma sum_loop_in_range_sound {St : Type} `{Countable St}
    (init : St) (step : St -> float -> St) (finish : St -> float)
    (x1 x2 x3 x4 x5 : float) :
  sum_loop_in_range init step finish = true ->
  Forall2 (fun x V => In x V) [x1; x2; x3; x4] first_four_weighted_scores ->
  In x5 fifth_weighted_scores ->
  score_in_range (finish (fold_left step [x1; x2; x3; x4; x5] init)) = true.
Proof.
  intros Hall H4 H5.
  unfold sum_loop_in_range in Hall. rewrite forallb_forall in Hall.
  change (fold_left step [x1; x2; x3; x4; x5] init)
    with (step (fold_left step [x1; x2; x3; x4] init) x5).
  pose proof (fold_extend_mem step _ _ (cset_singleton init) init
                (cset_mem_add init _) H4) as Hmem.
  apply cset_mem_elements, Hall in Hmem.
  rewrite forallb_forall in Hmem. apply Hmem, H5.
Qed.

Lemma sum_in_range :
  sum_loop_in_range (S754_zero false) PyFloat.add (fun x => x) = true.
Proof. vm_cast_no_check (eq_refl true). Qed.


(** ** Category scores *)

(** The quotient [s / n] of a category of [n] indicators in [1,10] is a
    finite double within half a unit in the last place of the exact
    quotient, and equal to it when [n] is 4. *)
Definition quotient_check (n s : Z) : bool :=
  let q := PyFloat.div (PyFloat.of_int_exact s) (PyFloat.of_int_exact n) in
  let exact := (inject_Z s / inject_Z n)%Q in
  PyFloat.is_finite q &&
  Qle_bool (Qabs (PyFloat.to_Q q - exact)) (exact / inject_Z (2 ^ 53)) &&
  ((negb (n =? 4)) || Qeq_bool (PyFloat.to_Q q) exact).

Lemma quotient_checks (n : Z) :
  n = 4 \/ n = 6 ->
  forallb (quotient_check n) (seqZ n (9 * n + 1)) = true.
Proof. intros [->| ->]; vm_compute; reflexivity. Qed.

Lemma int_sum_4 (a b c d : Z) : int_sum [a; b; c; d] = a + b + c + d.
Proof. unfold int_sum. simpl. lia. Qed.

Lemma int_sum_6 (a b c d e f : Z) :
  int_sum [a; b; c; d; e; f] = a + b + c + d + e + f.
Proof. unfold int_sum. simpl. lia. Qed.

Lemma valid_indicator_spec (v : Z) : valid_indicator v = true <-> 1 <= v <= 10.
Proof. unfold valid_indicator. rewrite andb_true_iff. lia. Qed.

(** The sum of a valid category lies between [n] and [10 n]. *)
Lemma valid_category_sum (cm : Metrics) :
  valid_category cm = true ->
  let n := Z.of_nat (length (dataclass_field_values cm)) in
  (n = 4 \/ n = 6) /\
  In (int_sum (dataclass_field_values cm)) (seqZ n (9 * n + 1)).
Proof.
  unfold valid_category. intros Hv.
  destruct cm as [[]|[]|[]|[]|[]]; cbn [dataclass_field_values] in *;
    cbn [forallb] in Hv;
    repeat (apply andb_true_iff in Hv as [?%valid_indicator_spec Hv]);
    (split; [cbn; lia|]);
    apply list_elem_of_In, elem_of_seqZ;
    rewrite ?int_sum_4, ?int_sum_6; cbn [length]; lia.
Qed.

Lemma calculate_category_score_valid (cm : Metrics) :
  valid_category cm = true ->
  let n := Z.of_nat (length (dataclass_field_values cm)) in
  let s := int_sum (dataclass_field_values cm) in
  calculate_category_score (Some cm) =
    Ok (PyFloat.div (PyFloat.of_int_exact s) (PyFloat.of_int_exact n)) /\
  quotient_check n s = true.
Proof.
  intros Hv n s. destruct (valid_category_sum cm Hv) as [Hn Hs].
  fold n in Hn, Hs. fold s in Hs.
  pose proof (quotient_checks n Hn) as Hall.
  rewrite forallb_forall in Hall. specialize (Hall s Hs).
  split; [|exact Hall].
  unfold calculate_category_score. fold n s. unfold PyFloat.int_truediv.
  replace (n =? 0) with false by (destruct Hn as [->| ->]; reflexivity).
  unfold quotient_check in Hall.
  apply andb_true_iff in Hall as [Hall _].
  apply andb_true_iff in Hall as [-> _]. reflexivity.
Qed.

Lemma quotient_all_equal (n v : Z) :
  n = 4 \/ n = 6 -> 1 <= v <= 10 ->
  PyFloat.div (PyFloat.of_int_exact (n * v)) (PyFloat.of_int_exact n) =
  PyFloat.of_int v.
Proof.
  intros Hn Hv.
  assert (Hcases : v = 1 \/ v = 2 \/ v = 3 \/ v = 4 \/ v = 5 \/
                   v = 6 \/ v = 7 \/ v = 8 \/ v = 9 \/ v = 10) by lia.
  destruct Hn as [->| ->];
    repeat (destruct Hcases as [->|Hcases]; [vm_compute; reflexivity|]);
    subst v; vm_compute; reflexivity.
Qed.

Lemma all_equal_sum (cm : Metrics) (v : Z) :
  valid_category cm = true ->
  Forall (eq v) (dataclass_field_values cm) ->
  1 <= v <= 10 /\
  int_sum (dataclass_field_values cm) =
  Z.of_nat (length (dataclass_field_values cm)) * v.
Proof.
  unfold valid_category.
  destruct cm as [[]|[]|[]|[]|[]]; simpl; intros Hv Hall;
    repeat match goal with
    | H : Forall _ (_ :: _) |- _ => inversion_clear H
    end; subst;
    apply andb_true_iff in Hv as [Hv%valid_indicator_spec _];
    rewrite ?int_sum_4, ?int_sum_6; lia.
Qed.

(** C8: the score of a category whose indicators lie in [1,10] is the
    quotient of their sum by their number, correctly rounded: a finite double
    within a relative error of 2^-53 of the exact mean, equal to the mean for
    the categories of four indicators, and equal to [v] when every indicator
    is [v] (7.0 for all 7, 1.0 for all 1, 10.0 for all 10).  A falsy
    category yields 0.0. *)
Theorem category_score_is_mean :
  (forall cm : Metrics,
     valid_category cm = true ->
     exists score : float,
       calculate_category_score (Some cm) = Ok score /\
       PyFloat.is_finite score = true /\
       (Qabs (PyFloat.to_Q score - mean (dataclass_field_values cm)) <=
          mean (dataclass_field_values cm) / inject_Z (2 ^ 53))%Q /\
       (length (dataclass_field_values cm) = 4%nat ->
          (PyFloat.to_Q score == mean (dataclass_field_values cm))%Q) /\
       (forall v : Z,
          Forall (eq v) (dataclass_field_values cm) -> score = PyFloat.of_int v)) /\
  calculate_category_score None = Ok (S754_zero false).
Proof.
  split; [|reflexivity].
  intros cm Hv.
  destruct (calculate_category_score_valid cm Hv) as [Hscore Hcheck].
  eexists. split; [exact Hscore|].
  unfold quotient_check in Hcheck.
  apply andb_true_iff in Hcheck as [Hcheck Hexact].
  apply andb_true_iff in Hcheck as [Hfin Herr].
  split; [exact Hfin|].
  split; [apply Qle_bool_iff, Herr|].
  split.
  - intros Hlen. unfold mean. rewrite Hlen in *.
    apply Qeq_bool_iff. exact Hexact.
  - intros v Hall.
    destruct (all_equal_sum cm v Hv Hall) as [Hrange Hsum].
    rewrite Hsum.
    apply quotient_all_equal; [|exact Hrange].
    destruct (valid_category_sum cm Hv) as [Hn _]. exact Hn.
Qed.

(** The specification's examples: a category of 7s scores 7.0, of 1s 1.0,
    of 10s 10.0, and the six illicit-market indicators at 7 score 7.0. *)
Lemma category_score_is_mean_witness :
  calculate_category_score
    (Some (PoliticalStability (Build_PoliticalStabilityMetrics 7 7 7 7))) =
    Ok (PyFloat.literal 70 1) /\
  calculate_category_score
    (Some (SocialIndicators (Build_SocialIndicatorsMetrics 1 1 1 1))) =
    Ok (PyFloat.literal 10 1) /\
  calculate_category_score
    (Some (SecurityEnvironment (Build_SecurityEnvironmentMetrics 10 10 10 10))) =
    Ok (PyFloat.literal 100 1) /\
  calculate_category_score
    (Some (IllicitMarkets (Build_IllicitMarketsMetrics 7 7 7 7 7 7))) =
    Ok (PyFloat.literal 70 1).
Proof.
  pose proof (proj1 category_score_is_mean) as Hmean.
  split; [|split; [|split]].
  - destruct (Hmean (PoliticalStability (Build_PoliticalStabilityMetrics 7 7 7 7))
                eq_refl) as (score & -> & _ & _ & _ & Heq).
    rewrite (Heq 7) by (repeat constructor). reflexivity.
  - destruct (Hmean (SocialIndicators (Build_SocialIndicatorsMetrics 1 1 1 1))
                eq_refl) as (score & -> & _ & _ & _ & Heq).
    rewrite (Heq 1) by (repeat constructor). reflexivity.
  - destruct (Hmean (SecurityEnvironment (Build_SecurityEnvironmentMetrics 10 10 10 10))
                eq_refl) as (score & -> & _ & _ & _ & Heq).
    rewrite (Heq 10) by (repeat constructor). reflexivity.
  - destruct (Hmean (IllicitMarkets (Build_IllicitMarketsMetrics 7 7 7 7 7 7))
                eq_refl) as (score & -> & _ & _ & _ & Heq).
    rewrite (Heq 7) by (repeat constructor). reflexivity.
Defined.

(** ** Threat scores *)

Lemma valid_record_categories (c : CountryData) :
  valid_record c = true ->
  valid_category (PoliticalStability (political_stability c)) = true /\
  valid_category (SecurityEnvironment (security_environment c)) = true /\
  valid_category (EconomicStability (economic_stability c)) = true /\
  valid_category (SocialIndicators (social_indicators c)) = true /\
  valid_category (IllicitMarkets (illicit_markets c)) = true.
Proof.
  unfold valid_record, indicators, valid_category.
  rewrite !forallb_app, !andb_true_iff. tauto.
Qed.

Lemma dict_item_WEIGHTS (key : string) :
  In key (map fst WEIGHTS) -> dict_item WEIGHTS key = Ok (weight key).
Proof.
  intros Hin. cbn in Hin.
  repeat (destruct Hin as [<-|Hin]; [reflexivity|]). contradiction.
Qed.

Lemma weighted_score_in (cm : Metrics) (w : float) (n : Z) :
  valid_category cm = true ->
  n = Z.of_nat (length (dataclass_field_values cm)) ->
  exists q,
    calculate_category_score (Some cm) = Ok q /\
    In (PyFloat.mul q w) (weighted_scores_of n w).
Proof.
  intros Hv ->.
  destruct (calculate_category_score_valid cm Hv) as [Hscore _].
  destruct (valid_category_sum cm Hv) as [_ Hs].
  eexists. split; [exact Hscore|].
  unfold weighted_scores_of.
  apply (in_map (fun s => PyFloat.mul (PyFloat.div (PyFloat.of_int_exact s) _) w)).
  exact Hs.
Qed.

(** On a valid record the threat score is [sum] of one weighted score per
    category. *)
Lemma calculate_threat_score_valid (builtin_sum : list float -> float)
    (c : CountryData) :
  valid_record c = true ->
  exists x1 x2 x3 x4 x5 : float,
    calculate_threat_score builtin_sum c = Ok (builtin_sum [x1; x2; x3; x4; x5]) /\
    Forall2 (fun x V => In x V) [x1; x2; x3; x4] first_four_weighted_scores /\
    In x5 fifth_weighted_scores.
Proof.
  intros Hv.
  destruct (valid_record_categories c Hv) as (H1 & H2 & H3 & H4 & H5).
  destruct (weighted_score_in _ (weight "political_stability") 4 H1 eq_refl)
    as (q1 & Hq1 & Hin1).
  destruct (weighted_score_in _ (weight "security_environment") 4 H2 eq_refl)
    as (q2 & Hq2 & Hin2).
  destruct (weighted_score_in _ (weight "economic_stability") 4 H3 eq_refl)
    as (q3 & Hq3 & Hin3).
  destruct (weighted_score_in _ (weight "social_indicators") 4 H4 eq_refl)
    as (q4 & Hq4 & Hin4).
  destruct (weighted_score_in _ (weight "illicit_markets") 6 H5 eq_refl)
    as (q5 & Hq5 & Hin5).
  exists (PyFloat.mul q1 (weight "political_stability")),
    (PyFloat.mul q2 (weight "security_environment")),
    (PyFloat.mul q3 (weight "economic_stability")),
    (PyFloat.mul q4 (weight "social_indicators")),
    (PyFloat.mul q5 (weight "illicit_markets")).
  split; [|split; [|exact Hin5]].
  2: { constructor; [exact Hin1|].
       constructor; [exact Hin2|].
       constructor; [exact Hin3|].
       constructor; [exact Hin4|].
       constructor. }
  unfold calculate_threat_score.
  rewrite Hq1, Hq2, Hq3, Hq4, Hq5.
  rewrite !dict_item_WEIGHTS by (cbn; tauto).
  reflexivity.
Qed.


(** A record with name "Brazil-2", every category exercised and non-empty
    notes. *)
Definition sample_record : CountryData :=
  {| name := "Brazil-2";
     political_stability := Build_PoliticalStabilityMetrics 4 6 5 3;
     security_environment := Build_SecurityEnvironmentMetrics 7 4 6 5;
     economic_stability := Build_EconomicStabilityMetrics 5 6 4 5;
     social_indicators := Build_SocialIndicatorsMetrics 6 7 5 4;
     illicit_markets := Build_IllicitMarketsMetrics 8 6 5 7 6 5;
     key_risk_factors := "Organised crime; fiscal pressure";
     trend_analysis := "Stable";
     recommendations := "Monitor quarterly" |}.


(** ** Levels, descriptions and colours *)

Definition levels : list string :=
  ["LOW"; "MODERATE"; "ELEVATED"; "HIGH"; "EXTREME"; "UNDEFINED"].

Lemma threat_level_of_score_in_levels (score : float) :
  In (threat_level_of_score score) levels.
Proof.
  unfold threat_level_of_score, levels.
  repeat match goal with
  | |- context [if ?b then _ else _] => destruct b
  end; cbn; tauto.
Qed.

Lemma dict_get_levels (d : dict string) (level : string) :
  map fst d = levels -> In level levels ->
  exists v, dict_get d level = Some v /\ In (level, v) d.
Proof.
  intros Hkeys Hin.
  destruct d as [|[k1 v1] [|[k2 v2] [|[k3 v3] [|[k4 v4] [|[k5 v5] [|[k6 v6] [|]]]]]]];
    try discriminate Hkeys.
  injection Hkeys as -> -> -> -> -> ->.
  cbn in Hin.
  repeat (destruct Hin as [<-|Hin]; [eexists; split; [reflexivity|cbn; tauto]|]).
  contradiction.
Qed.

(** Only the integer division of a category score can raise. *)
Lemma calculate_category_score_raise (cm : Metrics) (e : exn) :
  calculate_category_score (Some cm) = Raise e -> e = OverflowError.
Proof.
  unfold calculate_category_score, PyFloat.int_truediv.
  replace (Z.of_nat (length (dataclass_field_values cm)) =? 0) with false
    by (destruct cm; reflexivity).
  destruct (PyFloat.is_finite _); congruence.
Qed.

Lemma calculate_threat_score_raise (builtin_sum : list float -> float)
    (c : CountryData) (e : exn) :
  calculate_threat_score builtin_sum c = Raise e -> e = OverflowError.
Proof.
  unfold calculate_threat_score.
  rewrite !dict_item_WEIGHTS by (cbn; tauto).
  repeat match goal with
  | |- context [calculate_category_score (Some ?cm)] =>
      let H := fresh "H" in
      destruct (calculate_category_score (Some cm)) eqn:H;
      [ cbn [mbind result_bind]
      | apply calculate_category_score_raise in H; cbn [mbind result_bind];
        congruence ]
  end.
  discriminate.
Qed.

(** C10: whichever [sum] the interpreter has, the level of a record is one
    of the six keys of the description and colour tables, so the description
    and the colour returned are the table entries of that level and never the
    fallback of [.get]; the only other outcome is the [OverflowError] of a
    category mean too large for a double, which the description and the
    colour raise alike, and which no valid record raises. *)
Theorem threat_level_lookup_total (builtin_sum : list float -> float)
    (self : CountryData) :
  map fst descriptions = levels /\
  map fst colors_map = levels /\
  match get_threat_level builtin_sum self with
  | Ok level =>
      In level levels /\
      (exists d : string,
         In (level, d) descriptions /\
         dict_get descriptions level = Some d /\
         get_threat_description builtin_sum self = Ok d) /\
      (exists col : string,
         In (level, col) colors_map /\
         dict_get colors_map level = Some col /\
         get_threat_color builtin_sum self = Ok col)
  | Raise e =>
      e = OverflowError /\
      get_threat_description builtin_sum self = Raise e /\
      get_threat_color builtin_sum self = Raise e
  end /\
  (valid_record self = true ->
   exists level : string, get_threat_level builtin_sum self = Ok level).
Proof.
  split; [reflexivity|]. split; [reflexivity|]. split.
  - unfold get_threat_description, get_threat_color, get_threat_level.
    destruct (calculate_threat_score builtin_sum self) as [score|e] eqn:Hscore;
      cbn.
    + pose proof (threat_level_of_score_in_levels score) as Hin.
      split; [exact Hin|]. split.
      * destruct (dict_get_levels descriptions _ eq_refl Hin) as (d & Hd & Hind).
        exists d. unfold dict_get_default. rewrite Hd. auto.
      * destruct (dict_get_levels colors_map _ eq_refl Hin) as (col & Hc & Hinc).
        exists col. unfold dict_get_default. rewrite Hc. auto.
    + split; [|split; reflexivity].
      exact (calculate_threat_score_raise _ _ _ Hscore).
  - intros Hv.
    destruct (calculate_threat_score_valid builtin_sum self Hv)
      as (x1 & x2 & x3 & x4 & x5 & Hscore & _).
    unfold get_threat_level. rewrite Hscore. cbn. eexists. reflexivity.
Qed.

Lemma threat_level_lookup_total_witness :
  exists level : string,
    get_threat_level PyFloat.sum sample_record = Ok level.
Proof.
  apply (threat_level_lookup_total PyFloat.sum sample_record). reflexivity.
Defined.

(** ** The SQLite store

    The table [countries] is the list of its rows in rowid order, each row
    the list of its cells in the order of the columns of [CREATE TABLE],
    together with the counter that [AUTOINCREMENT] keeps in
    [sqlite_sequence].  [CURRENT_TIMESTAMP] is the text [now] handed to the
    statement. *)

Inductive sqlval : Type :=
| SqlNull
| SqlInteger (z : Z)
| SqlText (s : string).

#[global] Instance sqlval_eq_dec : EqDecision sqlval.
Proof. solve_decision. Defined.

Definition row : Type := list sqlval.

Record database : Type := {
  rows : list row;
  sqlite_sequence : Z
}.

(** The columns of [countries], in the order of [CREATE TABLE]; [row[i]] of
    a [SELECT *] is the cell of the [i]-th column. *)
Definition columns : list string :=
  [ "id"; "name";
    "ps_government_legitimacy"; "ps_political_violence";
    "ps_institutional_strength"; "ps_leadership_stability";
    "se_internal_conflict"; "se_regional_security";
    "se_law_enforcement"; "se_military_factors";
    "es_economic_performance"; "es_fiscal_health";
    "es_trade_dependencies"; "es_infrastructure_resilience";
    "si_social_cohesion"; "si_human_development";
    "si_demographic_pressures"; "si_information_environment";
    "im_drug_trade"; "im_human_trafficking"; "im_arms_trafficking";
    "im_financial_crimes"; "im_cybercrime_operations";
    "im_state_response_capacity";
    "key_risk_factors"; "trend_analysis"; "recommendations";
    "created_at"; "updated_at" ].

(** [CREATE TABLE IF NOT EXISTS]: a database file without the table gets an
    empty one, an existing table is left as it is. *)
Definition init_database (file : option database) : database :=
  match file with
  | Some db => db
  | None => {| rows := []; sqlite_sequence := 0 |}
  end.

Definition cell (i : nat) (r : row) : sqlval := nth i r SqlNull.

Definition row_id (r : row) : Z :=
  match cell 0 r with
  | SqlInteger z => z
  | _ => 0
  end.

(** The rowid an [AUTOINCREMENT] key gives to a new row: one more than the
    largest rowid the table has ever held. *)
Definition next_rowid (db : database) : Z :=
  fold_left Z.max (map row_id (rows db)) (sqlite_sequence db) + 1.

(** The value a column takes when the [INSERT] does not name it. *)
Definition column_default (now : string) (rowid : Z) (column : string) : sqlval :=
  if String.eqb column "id" then SqlInteger rowid
  else if String.eqb column "created_at" then SqlText now
  else if String.eqb column "updated_at" then SqlText now
  else SqlNull.

(** Two cells of a [UNIQUE] column clash when they are equal and not [NULL]. *)
Definition unique_clash (a b : sqlval) : bool :=
  match a, b with
  | SqlNull, _ | _, SqlNull => false
  | _, _ => bool_decide (a = b)
  end.

(** [INSERT OR REPLACE INTO countries (cols) VALUES (vals)]: the new row
    takes the given values and the defaults of the other columns; the rows
    that clash with it on the [UNIQUE] column [name] are deleted first. *)
Definition insert_or_replace (now : string) (cols : list string)
    (vals : list sqlval) (db : database) : database :=
  let rowid := next_rowid db in
  let given : dict sqlval := combine cols vals in
  let new_row :=
    map (fun column =>
           match dict_get given column with
           | Some v => v
           | None => column_default now rowid column
           end) columns in
  let kept :=
    List.filter (fun r => negb (unique_clash (cell 1 r) (cell 1 new_row))) (rows db) in
  {| rows := kept ++ [new_row]; sqlite_sequence := rowid |}.

(** SQLite integers are 64-bit; the binding raises [OverflowError] on a
    Python integer outside that range. *)
Definition fits_int64 (z : Z) : bool := (- 2 ^ 63 <=? z) && (z <? 2 ^ 63).

Definition save_country (now : string) (country : CountryData)
    (db : database) : result database :=
  let ps := political_stability country in
  let se := security_environment country in
  let es := economic_stability country in
  let si := social_indicators country in
  let im := illicit_markets country in
  if forallb fits_int64 (indicators country) then
    Ok (insert_or_replace now
      [ "name";
        "ps_government_legitimacy"; "ps_political_violence";
        "ps_institutional_strength"; "ps_leadership_stability";
        "se_internal_conflict"; "se_regional_security";
        "se_law_enforcement"; "se_military_factors";
        "es_economic_performance"; "es_fiscal_health";
        "es_trade_dependencies"; "es_infrastructure_resilience";
        "si_social_cohesion"; "si_human_development";
        "si_demographic_pressures"; "si_information_environment";
        "im_drug_trade"; "im_human_trafficking"; "im_arms_trafficking";
        "im_financial_crimes";
        "im_cybercrime_operations"; "im_state_response_capacity";
        "key_risk_factors"; "trend_analysis"; "recommendations";
        "updated_at" ]
      [ SqlText (name country);
        SqlInteger (government_legitimacy ps);
        SqlInteger (political_violence ps);
        SqlInteger (institutional_strength ps);
        SqlInteger (leadership_stability ps);
        SqlInteger (internal_conflict se);
        SqlInteger (regional_security se);
        SqlInteger (law_enforcement se);
        SqlInteger (military_factors se);
        SqlInteger (economic_performance es);
        SqlInteger (fiscal_health es);
        SqlInteger (trade_dependencies es);
        SqlInteger (infrastructure_resilience es);
        SqlInteger (social_cohesion si);
        SqlInteger (human_development si);
        SqlInteger (demographic_pressures si);
        SqlInteger (information_environment si);
        SqlInteger (drug_trade im);
        SqlInteger (human_trafficking im);
        SqlInteger (arms_trafficking im);
        SqlInteger (financial_crimes im);
        SqlInteger (cybercrime_operations im);
        SqlInteger (state_response_capacity im);
        SqlText (key_risk_factors country);
        SqlText (trend_analysis country);
        SqlText (recommendations country);
        SqlText now ]
      db)
  else Raise OverflowError.

(** The cells as the typed fields of the dataclasses read them.  A cell of
    another type than its field has no value in this model. *)
Definition as_int (v : sqlval) : option Z :=
  match v with
  | SqlInteger z => Some z
  | _ => None
  end.

Definition as_str (v : sqlval) : option string :=
  match v with
  | SqlText s => Some s
  | _ => None
  end.

(** [v or ""] on a text cell: [NULL] and the empty text are falsy. *)
Definition or_empty (v : sqlval) : option string :=
  match v with
  | SqlNull => Some ""
  | SqlText s => Some s
  | SqlInteger _ => None
  end.

Definition load_row (r : row) : option CountryData :=
  name ← as_str (cell 1 r);
  government_legitimacy ← as_int (cell 2 r);
  political_violence ← as_int (cell 3 r);
  institutional_strength ← as_int (cell 4 r);
  leadership_stability ← as_int (cell 5 r);
  internal_conflict ← as_int (cell 6 r);
  regional_security ← as_int (cell 7 r);
  law_enforcement ← as_int (cell 8 r);
  military_factors ← as_int (cell 9 r);
  economic_performance ← as_int (cell 10 r);
  fiscal_health ← as_int (cell 11 r);
  trade_dependencies ← as_int (cell 12 r);
  infrastructure_resilience ← as_int (cell 13 r);
  social_cohesion ← as_int (cell 14 r);
  human_development ← as_int (cell 15 r);
  demographic_pressures ← as_int (cell 16 r);
  information_environment ← as_int (cell 17 r);
  drug_trade ← as_int (cell 18 r);
  human_trafficking ← as_int (cell 19 r);
  arms_trafficking ← as_int (cell 20 r);
  financial_crimes ← as_int (cell 21 r);
  cybercrime_operations ← as_int (cell 22 r);
  state_response_capacity ← as_int (cell 23 r);
  key_risk_factors ← or_empty (cell 24 r);
  trend_analysis ← or_empty (cell 25 r);
  recommendations ← or_empty (cell 26 r);
  Some {|
    name := name;
    political_stability := {|
      government_legitimacy := government_legitimacy;
      political_violence := political_violence;
      institutional_strength := institutional_strength;
      leadership_stability := leadership_stability |};
    security_environment := {|
      internal_conflict := internal_conflict;
      regional_security := regional_security;
      law_enforcement := law_enforcement;
      military_factors := military_factors |};
    economic_stability := {|
      economic_performance := economic_performance;
      fiscal_health := fiscal_health;
      trade_dependencies := trade_dependencies;
      infrastructure_resilience := infrastructure_resilience |};
    social_indicators := {|
      social_cohesion := social_cohesion;
      human_development := human_development;
      demographic_pressures := demographic_pressures;
      information_environment := information_environment |};
    illicit_markets := {|
      drug_trade := drug_trade;
      human_trafficking := human_trafficking;
      arms_trafficking := arms_trafficking;
      financial_crimes := financial_crimes;
      cybercrime_operations := cybercrime_operations;
      state_response_capacity := state_response_capacity |};
    key_risk_factors := key_risk_factors;
    trend_analysis := trend_analysis;
    recommendations := recommendations |}.

(** [d[key] = v]: the value of an existing key is replaced in place, a new
    key goes to the end. *)
Fixpoint dict_set {V : Type} (d : dict V) (key : string) (v : V) : dict V :=
  match d with
  | [] => [(key, v)]
  | (k, v') :: d' =>
      if String.eqb k key then (k, v) :: d' else (k, v') :: dict_set d' key v
  end.

Definition load_all_countries (db : database) : option (dict CountryData) :=
  fold_left
    (fun countries r =>
       countries ← countries;
       country ← load_row r;
       Some (dict_set countries (name country) country))
    (rows db) (Some []).

(** [DELETE FROM countries WHERE name = ?] *)
Definition delete_country (country_name : string) (db : database) : database :=
  {| rows := List.filter
               (fun r => negb (bool_decide (cell 1 r = SqlText country_name)))
               (rows db);
     sqlite_sequence := sqlite_sequence db |}.

(** Every row of the table reads back as a record. *)
Definition typed (db : database) : bool :=
  forallb (fun r => bool_decide (is_Some (load_row r))) (rows db).

(** The row that [save_country] writes for a record: its rowid, the name,
    the 22 indicators, the three notes and the two timestamps. *)
Definition record_row (rowid : Z) (now : string) (c : CountryData) : row :=
  [SqlInteger rowid; SqlText (name c)] ++
  map SqlInteger (indicators c) ++
  [SqlText (key_risk_factors c); SqlText (trend_analysis c);
   SqlText (recommendations c); SqlText now; SqlText now].

Definition named (country_name : string) (r : row) : bool :=
  bool_decide (cell 1 r = SqlText country_name).

(** ** Dictionaries *)

Lemma dict_get_set_eq {V : Type} (d : dict V) (key : string) (v : V) :
  dict_get (dict_set d key v) key = Some v.
Proof.
  induction d as [|[k v'] d IH]; simpl.
  - rewrite String.eqb_refl. reflexivity.
  - destruct (String.eqb k key) eqn:Hk; simpl; rewrite Hk; auto.
Qed.

Lemma dict_get_set_ne {V : Type} (d : dict V) (key key' : string) (v : V) :
  key <> key' -> dict_get (dict_set d key v) key' = dict_get d key'.
Proof.
  intros Hne. induction d as [|[k v'] d IH]; simpl.
  - apply String.eqb_neq in Hne. rewrite Hne. reflexivity.
  - destruct (String.eqb k key) eqn:Hk; simpl.
    + apply String.eqb_eq in Hk. subst k.
      apply String.eqb_neq in Hne. rewrite Hne. reflexivity.
    + destruct (String.eqb k key'); auto.
Qed.

(** ** Saving and loading *)

Lemma valid_indicator_fits (l : list Z) :
  forallb valid_indicator l = true -> forallb fits_int64 l = true.
Proof.
  rewrite !forallb_forall. intros Hall v Hv.
  apply Hall, valid_indicator_spec in Hv.
  unfold fits_int64. apply andb_true_iff. lia.
Qed.

Lemma unique_clash_text (v : sqlval) (s : string) :
  unique_clash v (SqlText s) = bool_decide (v = SqlText s).
Proof.
  destruct v; reflexivity.
Qed.

(** What [save_country] does to the table: the rows of that name go, the
    row of the record comes last, under a fresh rowid. *)
Lemma save_country_rows (now : string) (c : CountryData) (db : database) :
  forallb fits_int64 (indicators c) = true ->
  save_country now c db =
    Ok {| rows := List.filter (fun r => negb (named (name c) r)) (rows db) ++
                  [record_row (next_rowid db) now c];
          sqlite_sequence := next_rowid db |}.
Proof.
  intros Hfits. unfold save_country. rewrite Hfits.
  unfold insert_or_replace. f_equal. f_equal.
  f_equal.
  apply filter_ext. intros r. unfold named. cbn.
  rewrite unique_clash_text. reflexivity.
Qed.

Lemma load_row_record_row (rowid : Z) (now : string) (c : CountryData) :
  load_row (record_row rowid now c) = Some c.
Proof. destruct c as [? [] [] [] [] [] ? ? ?]. reflexivity. Qed.

Definition load_step (countries : option (dict CountryData)) (r : row) :
    option (dict CountryData) :=
  countries ← countries;
  country ← load_row r;
  Some (dict_set countries (name country) country).

Lemma load_all_countries_fold (db : database) :
  load_all_countries db = fold_left load_step (rows db) (Some []).
Proof. reflexivity. Qed.

Lemma fold_load_step_typed (l : list row) (acc : dict CountryData) :
  forallb (fun r => bool_decide (is_Some (load_row r))) l = true ->
  is_Some (fold_left load_step l (Some acc)).
Proof.
  revert acc. induction l as [|r l IH]; intros acc Hl; simpl in *.
  - eauto.
  - apply andb_true_iff in Hl as [Hr Hl].
    apply bool_decide_eq_true in Hr as [c Hc].
    rewrite Hc. simpl. apply IH, Hl.
Qed.

Lemma typed_filter (f : row -> bool) (l : list row) :
  forallb (fun r => bool_decide (is_Some (load_row r))) l = true ->
  forallb (fun r => bool_decide (is_Some (load_row r))) (List.filter f l) = true.
Proof.
  rewrite !forallb_forall. intros Hall r Hr.
  apply filter_In in Hr as [Hr _]. apply Hall, Hr.
Qed.

(** Saving keeps the table readable, and reading it back gives the saved
    record under its name. *)
Lemma save_then_load (now : string) (c : CountryData) (db : database) :
  forallb fits_int64 (indicators c) = true ->
  typed db = true ->
  exists db' countries,
    save_country now c db = Ok db' /\
    typed db' = true /\
    load_all_countries db' = Some countries /\
    dict_get countries (name c) = Some c /\
    List.filter (named (name c)) (rows db') = [record_row (next_rowid db) now c].
Proof.
  intros Hfits Htyped.
  rewrite (save_country_rows now c db Hfits).
  set (kept := List.filter (fun r => negb (named (name c) r)) (rows db)).
  assert (Hkept : forallb (fun r => bool_decide (is_Some (load_row r))) kept = true)
    by (apply typed_filter, Htyped).
  destruct (fold_load_step_typed kept [] Hkept) as [before Hbefore].
  exists {| rows := kept ++ [record_row (next_rowid db) now c];
            sqlite_sequence := next_rowid db |}.
  exists (dict_set before (name c) c).
  split; [reflexivity|]. split; [|split; [|split]].
  - unfold typed. cbn [rows]. rewrite forallb_app, Hkept.
    cbn [forallb andb]. rewrite load_row_record_row. reflexivity.
  - rewrite load_all_countries_fold. cbn [rows].
    rewrite fold_left_app.
    match goal with
    | |- fold_left _ _ ?x = _ =>
        replace x with (Some before) by (symmetry; exact Hbefore)
    end.
    cbn [fold_left].
    unfold load_step. cbn [mbind option_bind].
    rewrite load_row_record_row. reflexivity.
  - apply dict_get_set_eq.
  - cbn [rows]. rewrite filter_app.
    replace (List.filter (named (name c)) kept) with (@nil row).
    + cbn [List.filter app]. unfold named at 1.
      rewrite bool_decide_eq_true_2 by reflexivity. reflexivity.
    + symmetry. unfold kept. clear.
      induction (rows db) as [|r l IH]; [reflexivity|]. cbn [List.filter].
      destruct (named (name c) r) eqn:Hr; cbn [negb List.filter]; [exact IH|].
      rewrite Hr. exact IH.
Qed.

(** C4: saving a valid record into a readable table and loading the table
    gives, under the name of the record, a record equal to it in the name,
    the 22 indicators and the three notes; the notes are stored as text
    cells, an empty note as the empty text and not as [NULL]. *)
Theorem save_load_round_trip (now : string) (c : CountryData) (db : database) :
  valid_record c = true ->
  typed db = true ->
  exists (db' : database) (countries : dict CountryData),
    save_country now c db = Ok db' /\
    load_all_countries db' = Some countries /\
    dict_get countries (name c) = Some c /\
    (forall r : row,
       In r (rows db') -> named (name c) r = true ->
       cell 24 r = SqlText (key_risk_factors c) /\
       cell 25 r = SqlText (trend_analysis c) /\
       cell 26 r = SqlText (recommendations c)).
Proof.
  intros Hv Htyped.
  destruct (save_then_load now c db (valid_indicator_fits _ Hv) Htyped)
    as (db' & countries & Hsave & _ & Hload & Hget & Hrow).
  exists db', countries. repeat (split; [assumption|]).
  intros r Hin Hnamed.
  assert (Hr : In r (List.filter (named (name c)) (rows db')))
    by (apply filter_In; auto).
  rewrite Hrow in Hr. destruct Hr as [<-|[]].
  destruct c as [? [] [] [] [] [] ? ? ?]. repeat split.
Qed.

(** The sample record, and the same record with empty notes, saved into a
    fresh table. *)
Lemma save_load_round_trip_witness :
  exists (db' : database) (countries : dict CountryData),
    save_country "2024-01-01 00:00:00" sample_record (init_database None) = Ok db' /\
    load_all_countries db' = Some countries /\
    dict_get countries "Brazil-2" = Some sample_record.
Proof.
  destruct (save_load_round_trip "2024-01-01 00:00:00" sample_record
              (init_database None) eq_refl eq_refl)
    as (db' & countries & Hsave & Hload & Hget & _).
  exists db', countries. auto.
Defined.

(** C5: saving [A] and then [A'] of the same name leaves one row of that
    name, the row of [A'], and loading gives [A'] under the name. *)
Theorem upsert_overwrites (t1 t2 : string) (A A' : CountryData) (db : database) :
  name A = name A' ->
  valid_record A = true ->
  valid_record A' = true ->
  typed db = true ->
  exists (db1 db2 : database) (countries : dict CountryData),
    save_country t1 A db = Ok db1 /\
    save_country t2 A' db1 = Ok db2 /\
    List.filter (named (name A)) (rows db2) = [record_row (next_rowid db1) t2 A'] /\
    load_all_countries db2 = Some countries /\
    dict_get countries (name A) = Some A'.
Proof.
  intros Hname HA HA' Htyped.
  destruct (save_then_load t1 A db (valid_indicator_fits _ HA) Htyped)
    as (db1 & _ & Hsave1 & Htyped1 & _).
  destruct (save_then_load t2 A' db1 (valid_indicator_fits _ HA') Htyped1)
    as (db2 & countries & Hsave2 & _ & Hload & Hget & Hrow).
  exists db1, db2, countries. rewrite Hname. auto.
Qed.

Definition sample_record' : CountryData :=
  {| name := "Brazil-2";
     political_stability := Build_PoliticalStabilityMetrics 9 9 8 7;
     security_environment := Build_SecurityEnvironmentMetrics 2 3 2 1;
     economic_stability := Build_EconomicStabilityMetrics 10 1 10 1;
     social_indicators := Build_SocialIndicatorsMetrics 3 3 3 3;
     illicit_markets := Build_IllicitMarketsMetrics 1 2 3 4 5 6;
     key_risk_factors := "";
     trend_analysis := "Deteriorating";
     recommendations := "" |}.

Lemma upsert_overwrites_witness :
  exists (db1 db2 : database) (countries : dict CountryData),
    save_country "2024-01-01 00:00:00" sample_record (init_database None) = Ok db1 /\
    save_country "2024-06-01 00:00:00" sample_record' db1 = Ok db2 /\
    List.filter (named "Brazil-2") (rows db2) =
      [record_row (next_rowid db1) "2024-06-01 00:00:00" sample_record'] /\
    load_all_countries db2 = Some countries /\
    dict_get countries "Brazil-2" = Some sample_record'.
Proof.
  exact (upsert_overwrites "2024-01-01 00:00:00" "2024-06-01 00:00:00"
           sample_record sample_record' (init_database None)
           eq_refl eq_refl eq_refl eq_refl).
Defined.

(** ** Deleting *)

Lemma filter_id {A : Type} (f : A -> bool) (l : list A) :
  (forall x, In x l -> f x = true) -> List.filter f l = l.
Proof.
  induction l as [|x l IH]; intros Hall; [reflexivity|].
  cbn [List.filter]. rewrite (Hall x) by (left; reflexivity).
  f_equal. apply IH. intros y Hy. apply Hall. right. exact Hy.
Qed.

Lemma filter_filter {A : Type} (f : A -> bool) (l : list A) :
  List.filter f (List.filter f l) = List.filter f l.
Proof.
  apply filter_id. intros x Hx. apply filter_In in Hx as [_ Hx]. exact Hx.
Qed.

(** A record that loads from a row carries the name cell of the row. *)
Lemma load_row_name (r : row) (c : CountryData) :
  load_row r = Some c -> cell 1 r = SqlText (name c).
Proof.
  unfold load_row.
  destruct (cell 1 r) as [|z|s]; cbn [as_str mbind option_bind]; try discriminate.
  repeat match goal with
  | |- context [as_int ?v] =>
      destruct (as_int v); cbn [mbind option_bind]; [|discriminate]
  | |- context [or_empty ?v] =>
      destruct (or_empty v); cbn [mbind option_bind]; [|discriminate]
  end.
  intros [= <-]. reflexivity.
Qed.

(** The keys of the loaded dictionary are the names of the rows. *)
Lemma fold_load_step_absent (l : list row) (acc countries : dict CountryData)
    (country_name : string) :
  fold_left load_step l (Some acc) = Some countries ->
  dict_get countries country_name = None ->
  dict_get acc country_name = None /\
  forall r, In r l -> cell 1 r <> SqlText country_name.
Proof.
  revert acc. induction l as [|r l IH]; intros acc Hfold Hget; cbn [fold_left] in Hfold.
  - injection Hfold as <-. split; [exact Hget|]. intros r [].
  - unfold load_step at 2 in Hfold. cbn [mbind option_bind] in Hfold.
    destruct (load_row r) as [c|] eqn:Hr; cbn [mbind option_bind] in Hfold.
    + destruct (IH _ Hfold Hget) as [Hacc Hrest].
      assert (Hne : name c <> country_name).
      { intros <-. rewrite dict_get_set_eq in Hacc. discriminate. }
      rewrite dict_get_set_ne in Hacc by exact Hne.
      split; [exact Hacc|].
      intros r' [<-|Hr']; [|apply Hrest, Hr'].
      rewrite (load_row_name _ _ Hr). congruence.
    + exfalso. clear - Hfold.
      induction l as [|r' l IH]; [discriminate|]. apply IH. exact Hfold.
Qed.

(** C6: deleting a name that no row of the table carries, or that the
    loaded dictionary does not hold, leaves the table as it is, and deleting
    a name twice is deleting it once; [delete_country] has no error
    outcome. *)
Theorem delete_absent_noop_idempotent (country_name : string) (db : database) :
  ((forall r, In r (rows db) -> cell 1 r <> SqlText country_name) ->
   delete_country country_name db = db) /\
  (forall countries : dict CountryData,
     load_all_countries db = Some countries ->
     dict_get countries country_name = None ->
     delete_country country_name db = db) /\
  delete_country country_name (delete_country country_name db) =
    delete_country country_name db.
Proof.
  assert (Habsent : (forall r, In r (rows db) -> cell 1 r <> SqlText country_name) ->
                    delete_country country_name db = db).
  { intros Hall. destruct db as [rs s]. unfold delete_country. cbn [rows sqlite_sequence] in *.
    f_equal. apply filter_id. intros r Hr.
    apply negb_true_iff, bool_decide_eq_false, Hall, Hr. }
  split; [exact Habsent|]. split.
  - intros countries Hload Hget. apply Habsent.
    rewrite load_all_countries_fold in Hload.
    exact (proj2 (fold_load_step_absent _ _ _ _ Hload Hget)).
  - unfold delete_country. cbn [rows sqlite_sequence].
    rewrite filter_filter. reflexivity.
Qed.

(** The table after the sample record is saved into a fresh database. *)
Definition sample_database : database :=
  {| rows := [record_row 1 "2024-01-01 00:00:00" sample_record];
     sqlite_sequence := 1 |}.

Lemma sample_database_saved :
  save_country "2024-01-01 00:00:00" sample_record (init_database None) =
  Ok sample_database.
Proof. reflexivity. Qed.

Lemma delete_absent_noop_idempotent_witness :
  delete_country "X" sample_database = sample_database.
Proof.
  apply (proj1 (delete_absent_noop_idempotent "X" sample_database)).
  intros r [<-|[]]. discriminate.
Defined.

(** ** Timestamps *)

(** After a save the rows of the saved name carry the fresh rowid and, in
    both timestamp columns, the time of the save: [INSERT OR REPLACE] deletes
    the row it replaces, so [created_at] takes its default again. *)
Lemma save_country_timestamps (now : string) (c : CountryData)
    (db db' : database) (r : row) :
  save_country now c db = Ok db' ->
  In r (rows db') -> named (name c) r = true ->
  row_id r = next_rowid db /\
  cell 27 r = SqlText now /\ cell 28 r = SqlText now.
Proof.
  intros Hsave Hin Hnamed.
  destruct (forallb fits_int64 (indicators c)) eqn:Hfits.
  - rewrite (save_country_rows now c db Hfits) in Hsave.
    injection Hsave as <-. cbn [rows] in Hin.
    apply in_app_or in Hin as [Hin|[<-|[]]].
    + apply filter_In in Hin as [_ Hin]. rewrite Hnamed in Hin. discriminate.
    + destruct c as [? [] [] [] [] [] ? ? ?]. repeat split.
  - unfold save_country in Hsave. rewrite Hfits in Hsave. discriminate.
Qed.

(** C9, evaluated: the sample record is created at the first time; saving
    a record of the same name at a later time leaves its row with the later
    time in [created_at] as well as in [updated_at]. *)
Theorem upsert_resets_created_at :
  map (cell 27) (List.filter (named "Brazil-2") (rows sample_database)) =
    [SqlText "2024-01-01 00:00:00"] /\
  exists db2 : database,
    save_country "2024-06-01 00:00:00" sample_record' sample_database = Ok db2 /\
    map (cell 27) (List.filter (named "Brazil-2") (rows db2)) =
      [SqlText "2024-06-01 00:00:00"] /\
    map (cell 28) (List.filter (named "Brazil-2") (rows db2)) =
      [SqlText "2024-06-01 00:00:00"].
Proof.
  split; [reflexivity|].
  eexists. split; [reflexivity|]. split; reflexivity.
Qed.

(** ** Strings

    The methods of [str] that [add_country] uses, on the code points below
    256; the character classes are those of the Unicode database. *)

Definition code_in (lo hi : N) (c : ascii) : bool :=
  ((lo <=? N_of_ascii c) && (N_of_ascii c <=? hi))%N.

(** [c.isspace()] *)
Definition isspace_char (c : ascii) : bool :=
  code_in 9 13 c || code_in 28 32 c || code_in 133 133 c || code_in 160 160 c.

(** [c.isalnum()] *)
Definition isalnum_char (c : ascii) : bool :=
  code_in 48 57 c || code_in 65 90 c || code_in 97 122 c ||
  code_in 170 170 c || code_in 178 179 c || code_in 181 181 c ||
  code_in 185 186 c || code_in 188 190 c || code_in 192 214 c ||
  code_in 216 246 c || code_in 248 255 c.

Fixpoint string_forallb (f : ascii -> bool) (s : string) : bool :=
  match s with
  | EmptyString => true
  | String c s' => f c && string_forallb f s'
  end.

Fixpoint string_existsb (f : ascii -> bool) (s : string) : bool :=
  match s with
  | EmptyString => false
  | String c s' => f c || string_existsb f s'
  end.

Definition is_empty (s : string) : bool :=
  match s with
  | EmptyString => true
  | String _ _ => false
  end.

Fixpoint lstrip (s : string) : string :=
  match s with
  | EmptyString => EmptyString
  | String c s' => if isspace_char c then lstrip s' else s
  end.

Fixpoint rstrip (s : string) : string :=
  match s with
  | EmptyString => EmptyString
  | String c s' =>
      let r := rstrip s' in
      if isspace_char c && is_empty r then EmptyString else String c r
  end.

(** [s.strip()] *)
Definition strip (s : string) : string := rstrip (lstrip s).

(** [s.replace(c, '')] for a single character [c] *)
Fixpoint remove_char (c : ascii) (s : string) : string :=
  match s with
  | EmptyString => EmptyString
  | String c' s' =>
      if Ascii.eqb c' c then remove_char c s' else String c' (remove_char c s')
  end.

(** [s.isalnum()]: at least one character, all of them alphanumeric *)
Definition isalnum (s : string) : bool :=
  negb (is_empty s) && string_forallb isalnum_char s.

(** ** The form and [add_country] *)

(** The widgets that [add_country] reads: the name entry, the values of the
    22 [IntVar]s grouped by category, and the three text boxes. *)
Record form : Type := {
  country_name : string;
  political_stability_vars : PoliticalStabilityMetrics;
  security_environment_vars : SecurityEnvironmentMetrics;
  economic_stability_vars : EconomicStabilityMetrics;
  social_indicators_vars : SocialIndicatorsMetrics;
  illicit_markets_vars : IllicitMarketsMetrics;
  key_risk_factors_text : string;
  trend_analysis_text : string;
  recommendations_text : string
}.

(** The state of [CountryRiskApp]: the registry [self.countries] and the
    database behind [self.db]. *)
Record app : Type := {
  countries : dict CountryData;
  db : database
}.

(** The message box an operation ends with. *)
Inductive dialog : Type :=
| EnterNameError           (* "Please enter a country name" *)
| InvalidCharactersError   (* "Country name contains invalid characters" *)
| AddError (e : exn)       (* "Error adding country: ..." *)
| SavedInfo (name : string) (* "Country '...' saved to database!" *).

(** [Text.get(1.0, tk.END)]: the content and the final newline of the
    widget. *)
Definition text_get (content : string) : string :=
  (content ++ String (ascii_of_nat 10) EmptyString)%string.

(** The record that [add_country] builds from the form. *)
Definition country_of_form (name : string) (f : form) : CountryData :=
  {| name := name;
     political_stability := political_stability_vars f;
     security_environment := security_environment_vars f;
     economic_stability := economic_stability_vars f;
     social_indicators := social_indicators_vars f;
     illicit_markets := illicit_markets_vars f;
     key_risk_factors := strip (text_get (key_risk_factors_text f));
     trend_analysis := strip (text_get (trend_analysis_text f));
     recommendations := strip (text_get (recommendations_text f)) |}.

(** [sorted] on strings: insertion into a list ordered by code points. *)
Fixpoint insert_sorted (s : string) (l : list string) : list string :=
  match l with
  | [] => [s]
  | x :: l' => if String.leb s x then s :: l else x :: insert_sorted s l'
  end.

Definition sorted (l : list string) : list string :=
  fold_right insert_sorted [] l.

Section App.

Variable builtin_sum : list float -> float.

(** The computations of [display_risk_assessment]; the text it writes is
    not modelled. *)
Definition display_risk_assessment (country : CountryData) : result unit :=
  _ ← calculate_category_score (Some (PoliticalStability (political_stability country)));
  _ ← calculate_category_score (Some (SecurityEnvironment (security_environment country)));
  _ ← calculate_category_score (Some (EconomicStability (economic_stability country)));
  _ ← calculate_category_score (Some (SocialIndicators (social_indicators country)));
  _ ← calculate_category_score (Some (IllicitMarkets (illicit_markets country)));
  _ ← calculate_threat_score builtin_sum country;
  _ ← get_threat_level builtin_sum country;
  _ ← get_threat_description builtin_sum country;
  Ok tt.

(** The computations of [update_country_list]: the level and the score of
    every country of the registry, in the order of the sorted names. *)
Definition update_country_list (registry : dict CountryData) : result unit :=
  fold_left
    (fun acc name =>
       _ ← acc;
       country ← dict_item registry name;
       _ ← get_threat_level builtin_sum country;
       _ ← calculate_threat_score builtin_sum country;
       Ok tt)
    (sorted (map fst registry)) (Ok tt).

Definition add_country (now : string) (f : form) (a : app) : app * dialog :=
  let name := strip (country_name f) in
  if is_empty name then (a, EnterNameError)
  else if negb (isalnum (remove_char "-" (remove_char " " name)))
  then (a, InvalidCharactersError)
  else
    let country_data := country_of_form name f in
    let registry := dict_set (countries a) name country_data in
    match save_country now country_data (db a) with
    | Raise e => ({| countries := registry; db := db a |}, AddError e)
    | Ok db' =>
        let a' := {| countries := registry; db := db' |} in
        match (_ ← display_risk_assessment country_data;
               update_country_list registry) with
        | Raise e => (a', AddError e)
        | Ok _ => (a', SavedInfo name)
        end
    end.

End App.

(** ** Validation *)

(** A character that the name check lets through. *)
Definition allowed_char (c : ascii) : bool :=
  isalnum_char c || Ascii.eqb c " " || Ascii.eqb c "-".

(** Every character is alphanumeric, a space or a hyphen, and at least one
    is alphanumeric. *)
Definition name_accepted (s : string) : bool :=
  string_forallb allowed_char s && string_existsb isalnum_char s.

(** The validation rule in the words of the specification: the name is
    empty, or holds a character other than alphanumerics, spaces and
    hyphens, or an indicator is outside [1,10]. *)
Definition spec_validation_error (f : form) : bool :=
  is_empty (country_name f) ||
  negb (string_forallb allowed_char (country_name f)) ||
  negb (forallb valid_indicator (indicators (country_of_form (country_name f) f))).

Definition is_validation_error (d : dialog) : bool :=
  match d with
  | EnterNameError | InvalidCharactersError => true
  | _ => false
  end.

Lemma remove_separators_forallb (s : string) :
  string_forallb isalnum_char (remove_char "-" (remove_char " " s)) =
  string_forallb allowed_char s.
Proof.
  induction s as [|c s IH]; [reflexivity|].
  cbn [remove_char string_forallb]. unfold allowed_char at 1.
  destruct (Ascii.eqb_spec c " ") as [->|Hsp].
  - cbn. exact IH.
  - cbn [remove_char]. destruct (Ascii.eqb_spec c "-") as [->|Hhy].
    + cbn. exact IH.
    + cbn [string_forallb]. rewrite IH, !orb_false_r. reflexivity.
Qed.

Lemma isalnum_remove_separators (s : string) :
  isalnum (remove_char "-" (remove_char " " s)) = name_accepted s.
Proof.
  unfold isalnum, name_accepted. rewrite remove_separators_forallb.
  induction s as [|c s IH]; [reflexivity|].
  cbn [remove_char string_forallb string_existsb]. unfold allowed_char at 1 3.
  destruct (Ascii.eqb_spec c " ") as [->|Hsp].
  - cbn. exact IH.
  - cbn [remove_char]. destruct (Ascii.eqb_spec c "-") as [->|Hhy].
    + cbn. exact IH.
    + cbn [is_empty negb]. rewrite !orb_false_r.
      destruct (isalnum_char c); cbn; [|reflexivity].
      rewrite andb_true_r. reflexivity.
Qed.

Lemma name_accepted_not_empty (s : string) :
  name_accepted s = true -> is_empty s = false.
Proof. destruct s; [discriminate|reflexivity]. Qed.

(** C3 as the code has it: [add_country] refuses the form, with the
    registry and the database untouched, exactly when the stripped name is
    empty or is not made of alphanumerics, spaces and hyphens with at least
    one alphanumeric among them.  Otherwise the record is built from the
    stripped name and the indicator values of the form as they are, without a
    range check, entered in the registry and handed to [save_country]. *)
Theorem add_country_validation (builtin_sum : list float -> float)
    (now : string) (f : form) (a : app) :
  let name := strip (country_name f) in
  let outcome := add_country builtin_sum now f a in
  (name_accepted name = false ->
   outcome = (a, if is_empty name then EnterNameError else InvalidCharactersError)) /\
  (name_accepted name = true ->
   is_validation_error (snd outcome) = false /\
   countries (fst outcome) = dict_set (countries a) name (country_of_form name f) /\
   match save_country now (country_of_form name f) (db a) with
   | Ok db' => db (fst outcome) = db'
   | Raise e => db (fst outcome) = db a /\ snd outcome = AddError e
   end).
Proof.
  intros name outcome. subst outcome. unfold add_country. fold name.
  rewrite isalnum_remove_separators.
  split; intros Hname; rewrite Hname.
  - destruct (is_empty name); reflexivity.
  - rewrite (name_accepted_not_empty _ Hname). cbn [negb].
    destruct (save_country now (country_of_form name f) (db a)) as [db'|e].
    + destruct (_ ← display_risk_assessment builtin_sum (country_of_form name f);
                update_country_list builtin_sum
                  (dict_set (countries a) name (country_of_form name f)));
        repeat split.
    + repeat split.
Qed.

(** The form of the sample record, with the name as typed. *)
Definition form_of (typed_name : string) (c : CountryData) : form :=
  {| country_name := typed_name;
     political_stability_vars := political_stability c;
     security_environment_vars := security_environment c;
     economic_stability_vars := economic_stability c;
     social_indicators_vars := social_indicators c;
     illicit_markets_vars := illicit_markets c;
     key_risk_factors_text := key_risk_factors c;
     trend_analysis_text := trend_analysis c;
     recommendations_text := recommendations c |}.

Definition fresh_app : app :=
  {| countries := []; db := init_database None |}.

(** "Brazil-2" is accepted, the empty name and "Bad$Name" are refused. *)
Lemma add_country_validation_witness :
  (is_validation_error
     (snd (add_country PyFloat.sum "2024-01-01 00:00:00"
             (form_of " Brazil-2 " sample_record) fresh_app)) = false /\
   countries (fst (add_country PyFloat.sum "2024-01-01 00:00:00"
                     (form_of " Brazil-2 " sample_record) fresh_app)) =
     [("Brazil-2", sample_record)]) /\
  add_country PyFloat.sum "2024-01-01 00:00:00" (form_of "" sample_record) fresh_app =
    (fresh_app, EnterNameError) /\
  add_country PyFloat.sum "2024-01-01 00:00:00" (form_of "Bad$Name" sample_record)
    fresh_app = (fresh_app, InvalidCharactersError).
Proof.
  split; [|split].
  - destruct (proj2 (add_country_validation PyFloat.sum "2024-01-01 00:00:00"
                       (form_of " Brazil-2 " sample_record) fresh_app) eq_refl)
      as (Hd & Hc & _).
    split; [exact Hd|exact Hc].
  - exact (proj1 (add_country_validation PyFloat.sum "2024-01-01 00:00:00"
                    (form_of "" sample_record) fresh_app) eq_refl).
  - exact (proj1 (add_country_validation PyFloat.sum "2024-01-01 00:00:00"
                    (form_of "Bad$Name" sample_record) fresh_app) eq_refl).
Defined.

(** A form whose indicators are 0 and 11. *)
Definition out_of_range_record : CountryData :=
  {| name := "Brazil-2";
     political_stability := Build_PoliticalStabilityMetrics 0 6 5 3;
     security_environment := Build_SecurityEnvironmentMetrics 7 4 6 5;
     economic_stability := Build_EconomicStabilityMetrics 5 6 4 5;
     social_indicators := Build_SocialIndicatorsMetrics 6 7 5 4;
     illicit_markets := Build_IllicitMarketsMetrics 11 6 5 7 6 5;
     key_risk_factors := "";
     trend_analysis := "";
     recommendations := "" |}.

(** C3 as stated fails: the specification's rule refuses indicators 0 and
    11, [add_country] saves them. *)
Lemma add_country_accepts_out_of_range :
  spec_validation_error (form_of "Brazil-2" out_of_range_record) = true /\
  exists db' : database,
    add_country PyFloat.sum "2024-01-01 00:00:00"
      (form_of "Brazil-2" out_of_range_record) fresh_app =
      ({| countries := [("Brazil-2", out_of_range_record)]; db := db' |},
       SavedInfo "Brazil-2") /\
    load_all_countries db' = Some [("Brazil-2", out_of_range_record)].
Proof.
  split; [reflexivity|].
  eexists. split; vm_compute; reflexivity.
Qed.

(** ** What a table loads to

    The record that [load_all_countries] returns under a name is the record
    of the last row of that name. *)

Definition last_named (country_name : string) (l : list row) : option row :=
  find (named country_name) (rev l).

Lemma named_load_row (r : row) (c : CountryData) (country_name : string) :
  load_row r = Some c -> named country_name r = String.eqb (name c) country_name.
Proof.
  intros Hr. unfold named. rewrite (load_row_name _ _ Hr).
  destruct (String.eqb_spec (name c) country_name) as [->|Hne].
  - apply bool_decide_eq_true_2. reflexivity.
  - apply bool_decide_eq_false_2. congruence.
Qed.

Lemma fold_load_step_none (l : list row) : fold_left load_step l None = None.
Proof. induction l as [|r l IH]; [reflexivity|exact IH]. Qed.

Lemma fold_load_step_snoc (l : list row) (r : row) (acc : option (dict CountryData)) :
  fold_left load_step (l ++ [r]) acc = load_step (fold_left load_step l acc) r.
Proof. rewrite fold_left_app. reflexivity. Qed.

Lemma load_step_some (o : option (dict CountryData)) (r : row)
    (countries : dict CountryData) :
  load_step o r = Some countries ->
  exists before c,
    o = Some before /\ load_row r = Some c /\
    countries = dict_set before (name c) c.
Proof.
  unfold load_step. destruct o as [before|]; cbn [mbind option_bind]; [|discriminate].
  destruct (load_row r) as [c|]; cbn [mbind option_bind]; [|discriminate].
  intros [= <-]. eauto.
Qed.

Lemma dict_get_set (d : dict CountryData) (key key' : string) (v : CountryData) :
  dict_get (dict_set d key v) key' =
  if String.eqb key key' then Some v else dict_get d key'.
Proof.
  destruct (String.eqb_spec key key') as [<-|Hne].
  - apply dict_get_set_eq.
  - apply dict_get_set_ne, Hne.
Qed.

Lemma fold_load_step_get (l : list row) (acc countries : dict CountryData)
    (country_name : string) :
  fold_left load_step l (Some acc) = Some countries ->
  dict_get countries country_name =
  match last_named country_name l with
  | Some r => load_row r
  | None => dict_get acc country_name
  end.
Proof.
  revert countries. induction l as [|r l IH] using rev_ind; intros countries Hfold.
  - injection Hfold as <-. reflexivity.
  - rewrite fold_load_step_snoc in Hfold.
    apply load_step_some in Hfold as (before & c & Hbefore & Hr & ->).
    unfold last_named. rewrite rev_app_distr. cbn [rev List.app find].
    rewrite (named_load_row _ _ country_name Hr), dict_get_set.
    destruct (String.eqb (name c) country_name); [symmetry; exact Hr|].
    apply IH, Hbefore.
Qed.

Lemma load_all_countries_get (db : database) (countries : dict CountryData)
    (country_name : string) :
  load_all_countries db = Some countries ->
  dict_get countries country_name =
  match last_named country_name (rows db) with
  | Some r => load_row r
  | None => None
  end.
Proof.
  intros Hload. rewrite load_all_countries_fold in Hload.
  exact (fold_load_step_get _ _ _ _ Hload).
Qed.

Lemma typed_loads (db : database) :
  typed db = true -> exists countries, load_all_countries db = Some countries.
Proof.
  intros Htyped. rewrite load_all_countries_fold.
  destruct (fold_load_step_typed (rows db) [] Htyped) as [m Hm]. eauto.
Qed.

Lemma find_rev_filter {A : Type} (p q : A -> bool) (l : list A) :
  (forall x, p x = true -> q x = true) ->
  find p (rev (List.filter q l)) = find p (rev l).
Proof.
  intros Hpq. induction l as [|x l IH] using rev_ind; [reflexivity|].
  rewrite filter_app, !rev_app_distr. cbn [List.filter rev List.app].
  destruct (q x) eqn:Hq; cbn [rev List.app find].
  - rewrite IH. reflexivity.
  - rewrite IH. destruct (p x) eqn:Hp; [|reflexivity].
    rewrite (Hpq x Hp) in Hq. discriminate.
Qed.

Lemma find_rev_filter_none {A : Type} (p : A -> bool) (l : list A) :
  find p (rev (List.filter (fun x => negb (p x)) l)) = None.
Proof.
  induction l as [|x l IH] using rev_ind; [reflexivity|].
  rewrite filter_app, rev_app_distr. cbn [List.filter].
  destruct (p x) eqn:Hp; cbn [negb rev List.app find]; [exact IH|].
  rewrite Hp. exact IH.
Qed.

Lemma named_other (n k : string) (r : row) :
  n <> k -> named k r = true -> negb (named n r) = true.
Proof.
  unfold named. intros Hne Hk. apply bool_decide_eq_true in Hk.
  apply negb_true_iff, bool_decide_eq_false. congruence.
Qed.

Lemma fold_load_step_rows (l : list row) (acc countries : dict CountryData) :
  fold_left load_step l (Some acc) = Some countries ->
  forallb (fun r => bool_decide (is_Some (load_row r))) l = true.
Proof.
  revert countries. induction l as [|r l IH] using rev_ind; intros countries Hfold;
    [reflexivity|].
  rewrite fold_load_step_snoc in Hfold.
  apply load_step_some in Hfold as (before & c & Hbefore & Hr & _).
  rewrite forallb_app, (IH _ Hbefore). cbn [forallb andb].
  rewrite Hr. reflexivity.
Qed.

Lemma load_typed (db : database) (countries : dict CountryData) :
  load_all_countries db = Some countries -> typed db = true.
Proof.
  rewrite load_all_countries_fold. apply fold_load_step_rows.
Qed.

(** X1: the keys of the loaded dictionary are the names of the rows: a
    record found under a key carries that key as its name and is the record
    of a row of that name, and every name of a row is a key. *)
Theorem load_keys_are_names (db : database) (countries : dict CountryData) :
  load_all_countries db = Some countries ->
  (forall (key : string) (c : CountryData),
     dict_get countries key = Some c ->
     name c = key /\
     exists r, In r (rows db) /\ named key r = true /\ load_row r = Some c) /\
  (forall (r : row) (key : string),
     In r (rows db) -> named key r = true ->
     exists c, dict_get countries key = Some c).
Proof.
  intros Hload. split.
  - intros key c Hget.
    rewrite (load_all_countries_get _ _ key Hload) in Hget.
    destruct (last_named key (rows db)) as [r|] eqn:Hlast; [|discriminate].
    apply find_some in Hlast as [Hin Hnamed].
    apply in_rev in Hin.
    split; [|eauto].
    rewrite (named_load_row _ _ key Hget) in Hnamed.
    apply String.eqb_eq, Hnamed.
  - intros r key Hin Hnamed.
    rewrite (load_all_countries_get _ _ key Hload).
    destruct (last_named key (rows db)) as [r'|] eqn:Hlast.
    + apply find_some in Hlast as [Hin' _]. apply in_rev in Hin'.
      pose proof (load_typed _ _ Hload) as Htyped.
      unfold typed in Htyped. rewrite forallb_forall in Htyped.
      apply Htyped, bool_decide_eq_true in Hin'. destruct Hin' as [c Hc]. eauto.
    + pose proof (find_none _ _ Hlast r) as Hnone.
      rewrite Hnone in Hnamed by (apply in_rev; rewrite rev_involutive; exact Hin).
      discriminate.
Qed.

Lemma load_keys_are_names_witness :
  exists c : CountryData, dict_get [("Brazil-2", sample_record)] "Brazil-2" = Some c.
Proof.
  apply (proj2 (load_keys_are_names sample_database
                  [("Brazil-2", sample_record)] eq_refl)
           (record_row 1 "2024-01-01 00:00:00" sample_record) "Brazil-2");
    [left; reflexivity|reflexivity].
Defined.

Lemma save_country_get_other (now : string) (c : CountryData) (db db' : database)
    (before after : dict CountryData) (key : string) :
  save_country now c db = Ok db' ->
  load_all_countries db = Some before ->
  load_all_countries db' = Some after ->
  key <> name c ->
  dict_get after key = dict_get before key.
Proof.
  intros Hsave Hbefore Hafter Hkey.
  rewrite (load_all_countries_get _ _ key Hbefore),
    (load_all_countries_get _ _ key Hafter).
  destruct (forallb fits_int64 (indicators c)) eqn:Hfits.
  - rewrite (save_country_rows now c db Hfits) in Hsave.
    injection Hsave as <-. cbn [rows]. unfold last_named.
    rewrite rev_app_distr. cbn [rev List.app find].
    replace (named key (record_row (next_rowid db) now c)) with false.
    + rewrite find_rev_filter; [reflexivity|].
      intros r. apply named_other. congruence.
    + symmetry. apply bool_decide_eq_false. cbn. congruence.
  - unfold save_country in Hsave. rewrite Hfits in Hsave. discriminate.
Qed.

(** X2: saving a record leaves what the table loads to under every other
    name as it was. *)
Theorem save_country_frame (now : string) (c : CountryData) (db db' : database)
    (before after : dict CountryData) (key : string) :
  save_country now c db = Ok db' ->
  load_all_countries db = Some before ->
  load_all_countries db' = Some after ->
  key <> name c ->
  dict_get after key = dict_get before key.
Proof. apply save_country_get_other. Qed.

Lemma delete_country_get (country_name : string) (db : database)
    (before : dict CountryData) :
  load_all_countries db = Some before ->
  exists after : dict CountryData,
    load_all_countries (delete_country country_name db) = Some after /\
    dict_get after country_name = None /\
    forall key, key <> country_name -> dict_get after key = dict_get before key.
Proof.
  intros Hbefore.
  assert (Htyped : typed (delete_country country_name db) = true).
  { unfold typed, delete_country. cbn [rows].
    apply typed_filter. exact (load_typed _ _ Hbefore). }
  destruct (typed_loads _ Htyped) as [after Hafter].
  exists after. split; [exact Hafter|]. split.
  - rewrite (load_all_countries_get _ _ country_name Hafter).
    unfold delete_country, last_named. cbn [rows].
    change (fun r => negb (bool_decide (cell 1 r = SqlText country_name)))
      with (fun r => negb (named country_name r)).
    rewrite find_rev_filter_none. reflexivity.
  - intros key Hkey.
    rewrite (load_all_countries_get _ _ key Hbefore),
      (load_all_countries_get _ _ key Hafter).
    unfold delete_country, last_named. cbn [rows].
    rewrite find_rev_filter; [reflexivity|].
    intros r. apply named_other. congruence.
Qed.

(** X3: deleting a name removes it from what the table loads to and leaves
    every other name as it was; the table stays readable. *)
Theorem delete_country_removes (country_name : string) (db : database)
    (before : dict CountryData) :
  load_all_countries db = Some before ->
  exists after : dict CountryData,
    load_all_countries (delete_country country_name db) = Some after /\
    dict_get after country_name = None /\
    forall key, key <> country_name -> dict_get after key = dict_get before key.
Proof. apply delete_country_get. Qed.

Lemma delete_country_removes_witness :
  exists after : dict CountryData,
    load_all_countries (delete_country "Brazil-2" sample_database) = Some after /\
    dict_get after "Brazil-2" = None.
Proof.
  destruct (delete_country_removes "Brazil-2" sample_database
              [("Brazil-2", sample_record)] eq_refl) as (after & Hload & Hnone & _).
  exists after. split; assumption.
Defined.

Definition second_record : CountryData :=
  {| name := "Chile";
     political_stability := Build_PoliticalStabilityMetrics 2 3 2 2;
     security_environment := Build_SecurityEnvironmentMetrics 3 2 3 2;
     economic_stability := Build_EconomicStabilityMetrics 3 3 4 3;
     social_indicators := Build_SocialIndicatorsMetrics 7 8 3 2;
     illicit_markets := Build_IllicitMarketsMetrics 3 2 2 3 3 3;
     key_risk_factors := "";
     trend_analysis := "";
     recommendations := "" |}.

Lemma save_country_frame_witness :
  dict_get [("Brazil-2", sample_record); ("Chile", second_record)] "Brazil-2" =
  dict_get [("Brazil-2", sample_record)] "Brazil-2".
Proof.
  apply (save_country_frame "2024-02-01 00:00:00" second_record sample_database
           {| rows := [record_row 1 "2024-01-01 00:00:00" sample_record;
                       record_row 2 "2024-02-01 00:00:00" second_record];
              sqlite_sequence := 2 |});
    [reflexivity|reflexivity|reflexivity|discriminate].
Defined.

Lemma filter_not_named_record_row (n : string) (l : list row) (r : row) :
  named n r = true ->
  List.filter (fun r => negb (named n r)) (List.filter (fun r => negb (named n r)) l ++ [r]) =
  List.filter (fun r => negb (named n r)) l.
Proof.
  intros Hr. rewrite filter_app, filter_filter. cbn [List.filter].
  rewrite Hr. cbn [negb]. apply app_nil_r.
Qed.

Lemma named_record_row (rowid : Z) (now : string) (c : CountryData) :
  named (name c) (record_row rowid now c) = true.
Proof. apply bool_decide_eq_true_2. reflexivity. Qed.

(** X4: saving the same record a second time changes nothing in what the
    table loads to; only the rowid and the timestamps of its row change. *)
Theorem upsert_idempotent (t1 t2 : string) (c : CountryData) (db db1 db2 : database) :
  save_country t1 c db = Ok db1 ->
  save_country t2 c db1 = Ok db2 ->
  load_all_countries db2 = load_all_countries db1 /\
  map (fun r => firstn 26 (skipn 1 r)) (rows db2) =
  map (fun r => firstn 26 (skipn 1 r)) (rows db1).
Proof.
  intros Hsave1 Hsave2.
  destruct (forallb fits_int64 (indicators c)) eqn:Hfits.
  - rewrite (save_country_rows t1 c db Hfits) in Hsave1. injection Hsave1 as <-.
    rewrite (save_country_rows t2 c _ Hfits) in Hsave2. injection Hsave2 as <-.
    cbn [rows].
    rewrite filter_not_named_record_row by apply named_record_row.
    split.
    + rewrite !load_all_countries_fold. cbn [rows].
      rewrite !fold_left_app. cbn [fold_left].
      unfold load_step at 1 3. rewrite !load_row_record_row. reflexivity.
    + rewrite !map_app. f_equal.
  - unfold save_country in Hsave1. rewrite Hfits in Hsave1. discriminate.
Qed.

Lemma upsert_idempotent_witness :
  load_all_countries
    {| rows := [record_row 2 "2024-06-01 00:00:00" sample_record];
       sqlite_sequence := 2 |} =
  load_all_countries sample_database.
Proof.
  apply (upsert_idempotent "2024-01-01 00:00:00" "2024-06-01 00:00:00"
           sample_record (init_database None) sample_database
           {| rows := [record_row 2 "2024-06-01 00:00:00" sample_record];
              sqlite_sequence := 2 |});
    reflexivity.
Defined.

(** ** Invariants of the table

    The databases that the handler can produce: a fresh file initialised,
    then any sequence of successful saves and of deletes. *)

Inductive reachable : database -> Prop :=
| reachable_init : reachable (init_database None)
| reachable_save (now : string) (c : CountryData) (db db' : database) :
    reachable db -> save_country now c db = Ok db' -> reachable db'
| reachable_delete (country_name : string) (db : database) :
    reachable db -> reachable (delete_country country_name db).

Definition store_invariant (db : database) : Prop :=
  typed db = true /\
  Forall (fun r => length r = length columns) (rows db) /\
  List.NoDup (map (cell 1) (rows db)) /\
  StronglySorted Z.lt (map row_id (rows db)) /\
  Forall (fun r => row_id r <= sqlite_sequence db) (rows db).

Lemma fold_left_max_ge (l : list Z) (a : Z) :
  a <= fold_left Z.max l a /\ Forall (fun x => x <= fold_left Z.max l a) l.
Proof.
  revert a. induction l as [|x l IH]; intros a; cbn [fold_left].
  - split; [lia|constructor].
  - destruct (IH (Z.max a x)) as [Hle Hall]. split; [lia|].
    constructor; [lia|exact Hall].
Qed.

Lemma next_rowid_fresh (db : database) :
  sqlite_sequence db < next_rowid db /\
  Forall (fun r => row_id r < next_rowid db) (rows db).
Proof.
  unfold next_rowid.
  destruct (fold_left_max_ge (map row_id (rows db)) (sqlite_sequence db))
    as [Hseq Hall].
  split; [lia|].
  rewrite Forall_map in Hall. eapply Forall_impl; [|exact Hall].
  intros r Hr. cbn in Hr. lia.
Qed.

Lemma Forall_filter_keep {A : Type} (P : A -> Prop) (f : A -> bool) (l : list A) :
  Forall P l -> Forall P (List.filter f l).
Proof.
  rewrite !Forall_forall. intros Hall x Hx.
  apply filter_In in Hx as [Hx _]. apply Hall, Hx.
Qed.

Lemma NoDup_map_filter {A B : Type} (g : A -> B) (f : A -> bool) (l : list A) :
  List.NoDup (map g l) -> List.NoDup (map g (List.filter f l)).
Proof.
  induction l as [|x l IH]; intros Hnd; [exact Hnd|].
  cbn [map] in Hnd. apply List.NoDup_cons_iff in Hnd as [Hx Hnd].
  cbn [List.filter]. destruct (f x); [|apply IH, Hnd].
  cbn [map]. apply List.NoDup_cons_iff. split; [|apply IH, Hnd].
  intros Hin. apply Hx. apply in_map_iff in Hin as (y & Hy & Hin).
  apply in_map_iff. exists y. split; [exact Hy|].
  apply filter_In in Hin as [Hin _]. exact Hin.
Qed.

Lemma NoDup_snoc {A : Type} (l : list A) (x : A) :
  List.NoDup l -> ~ In x l -> List.NoDup (l ++ [x]).
Proof.
  induction l as [|y l IH]; intros Hnd Hx; cbn [List.app].
  - constructor; [intros []|constructor].
  - apply List.NoDup_cons_iff in Hnd as [Hy Hnd].
    apply List.NoDup_cons_iff. split.
    + intros Hin. apply in_app_or in Hin as [Hin|[<-|[]]]; [exact (Hy Hin)|].
      apply Hx. left. reflexivity.
    + apply IH; [exact Hnd|]. intros Hin. apply Hx. right. exact Hin.
Qed.

Lemma StronglySorted_map_filter {A : Type} (g : A -> Z) (f : A -> bool) (l : list A) :
  StronglySorted Z.lt (map g l) -> StronglySorted Z.lt (map g (List.filter f l)).
Proof.
  induction l as [|x l IH]; intros Hs; [exact Hs|].
  cbn [map] in Hs. apply StronglySorted_inv in Hs as [Hs Hx].
  cbn [List.filter]. destruct (f x); [|apply IH, Hs].
  cbn [map]. constructor; [apply IH, Hs|].
  rewrite Forall_map in *. apply Forall_filter_keep, Hx.
Qed.

Lemma StronglySorted_snoc (l : list Z) (x : Z) :
  StronglySorted Z.lt l -> Forall (fun y => y < x) l ->
  StronglySorted Z.lt (l ++ [x]).
Proof.
  induction l as [|y l IH]; intros Hs Hall; cbn [List.app].
  - constructor; constructor.
  - apply StronglySorted_inv in Hs as [Hs Hy].
    apply Forall_cons_iff in Hall as [Hyx Hall].
    constructor; [apply IH; assumption|].
    apply Forall_app. split; [exact Hy|]. constructor; [exact Hyx|constructor].
Qed.

Lemma record_row_length (rowid : Z) (now : string) (c : CountryData) :
  length (record_row rowid now c) = length columns.
Proof. destruct c as [? [] [] [] [] [] ? ? ?]. reflexivity. Qed.

Lemma store_invariant_save (now : string) (c : CountryData) (db db' : database) :
  store_invariant db -> save_country now c db = Ok db' -> store_invariant db'.
Proof.
  intros (Htyped & Hlen & Hnd & Hsorted & Hseq) Hsave.
  destruct (forallb fits_int64 (indicators c)) eqn:Hfits.
  2: { unfold save_country in Hsave. rewrite Hfits in Hsave. discriminate. }
  destruct (save_then_load now c db Hfits Htyped)
    as (db1 & _ & Hsave1 & Htyped1 & _).
  rewrite Hsave in Hsave1. injection Hsave1 as <-.
  rewrite (save_country_rows now c db Hfits) in Hsave. injection Hsave as <-.
  destruct (next_rowid_fresh db) as [Hfresh Hids].
  split; [exact Htyped1|]. cbn [rows sqlite_sequence].
  split; [|split; [|split]].
  - apply Forall_app. split; [apply Forall_filter_keep, Hlen|].
    constructor; [apply record_row_length|constructor].
  - rewrite map_app. cbn [map]. apply NoDup_snoc.
    + apply NoDup_map_filter, Hnd.
    + intros Hv.
      apply in_map_iff in Hv as (r & Hr & Hin).
      apply filter_In in Hin as [_ Hin].
      apply negb_true_iff, bool_decide_eq_false in Hin. apply Hin.
      rewrite Hr. reflexivity.
  - rewrite map_app. cbn [map]. apply StronglySorted_snoc.
    + apply StronglySorted_map_filter, Hsorted.
    + rewrite Forall_map. apply Forall_filter_keep.
      eapply Forall_impl; [|exact Hids]. intros r Hr. cbn in *. exact Hr.
  - apply Forall_app. split.
    + apply Forall_filter_keep. eapply Forall_impl; [|exact Hids].
      intros r Hr. cbn in Hr. lia.
    + constructor; [cbn; lia|constructor].
Qed.

Lemma store_invariant_delete (country_name : string) (db : database) :
  store_invariant db -> store_invariant (delete_country country_name db).
Proof.
  intros (Htyped & Hlen & Hnd & Hsorted & Hseq).
  unfold store_invariant, typed, delete_country. cbn [rows sqlite_sequence].
  split; [apply typed_filter, Htyped|].
  split; [apply Forall_filter_keep, Hlen|].
  split; [apply NoDup_map_filter, Hnd|].
  split; [apply StronglySorted_map_filter, Hsorted|].
  apply Forall_filter_keep, Hseq.
Qed.

Lemma reachable_store_invariant (db : database) :
  reachable db -> store_invariant db.
Proof.
  induction 1 as [|now c db db' _ IH Hsave|country_name db _ IH].
  - repeat split; constructor.
  - exact (store_invariant_save now c db db' IH Hsave).
  - exact (store_invariant_delete country_name db IH).
Qed.

Lemma reachable_sample_database : reachable sample_database.
Proof.
  exact (reachable_save _ _ _ _ reachable_init sample_database_saved).
Qed.

(** X5: every database that the handler can produce is readable by
    [load_all_countries], has one cell per column in every row and at most
    one row per name. *)
Theorem reachable_readable_unique (db : database) :
  reachable db ->
  (exists countries, load_all_countries db = Some countries) /\
  Forall (fun r => length r = 29%nat) (rows db) /\
  List.NoDup (map (cell 1) (rows db)).
Proof.
  intros Hreach.
  destruct (reachable_store_invariant db Hreach) as (Htyped & Hlen & Hnd & _).
  split; [exact (typed_loads db Htyped)|]. split; [exact Hlen|exact Hnd].
Qed.

Lemma reachable_readable_unique_witness :
  exists countries, load_all_countries sample_database = Some countries.
Proof.
  exact (proj1 (reachable_readable_unique sample_database reachable_sample_database)).
Defined.

(** X6: in every database that the handler can produce the rowids grow
    along the table and none exceeds the [AUTOINCREMENT] counter; a save
    raises the counter and gives the saved row the new counter as its rowid,
    so a rowid is never used again, also when the row it replaces or a
    deleted row held the largest one. *)
Theorem rowids_never_reused (db : database) :
  reachable db ->
  StronglySorted Z.lt (map row_id (rows db)) /\
  Forall (fun r => row_id r <= sqlite_sequence db) (rows db) /\
  forall (now : string) (c : CountryData) (db' : database),
    save_country now c db = Ok db' ->
    sqlite_sequence db < sqlite_sequence db' /\
    forall r, In r (rows db') -> named (name c) r = true ->
              row_id r = sqlite_sequence db'.
Proof.
  intros Hreach.
  destruct (reachable_store_invariant db Hreach) as (_ & _ & _ & Hsorted & Hseq).
  split; [exact Hsorted|]. split; [exact Hseq|].
  intros now c db' Hsave.
  assert (Hcounter : sqlite_sequence db' = next_rowid db).
  { destruct (forallb fits_int64 (indicators c)) eqn:Hfits.
    - rewrite (save_country_rows now c db Hfits) in Hsave.
      injection Hsave as <-. reflexivity.
    - unfold save_country in Hsave. rewrite Hfits in Hsave. discriminate. }
  rewrite Hcounter. split; [apply next_rowid_fresh|].
  intros r Hin Hnamed.
  exact (proj1 (save_country_timestamps now c db db' r Hsave Hin Hnamed)).
Qed.

Lemma rowids_never_reused_witness :
  Forall (fun r => row_id r <= sqlite_sequence sample_database)
    (rows sample_database).
Proof.
  apply (rowids_never_reused sample_database reachable_sample_database).
Defined.

(** ** The registry and the store *)

(** The registry answers every lookup as the loaded table does. *)
Definition in_sync (a : app) : Prop :=
  exists loaded : dict CountryData,
    load_all_countries (db a) = Some loaded /\
    forall key, dict_get (countries a) key = dict_get loaded key.

(** [load_data]: the registry becomes what the table loads to.  A table
    with a cell of another type than its field is outside the model. *)
Definition load_data (a : app) : option app :=
  loaded ← load_all_countries (db a);
  Some {| countries := loaded; db := db a |}.

(** [populate_form]: the name, the 22 [IntVar]s and the three text boxes
    take the values of the record. *)
Definition populate_form (country : CountryData) : form :=
  {| country_name := name country;
     political_stability_vars := political_stability country;
     security_environment_vars := security_environment country;
     economic_stability_vars := economic_stability country;
     social_indicators_vars := social_indicators country;
     illicit_markets_vars := illicit_markets country;
     key_risk_factors_text := key_risk_factors country;
     trend_analysis_text := trend_analysis country;
     recommendations_text := recommendations country |}.

Lemma add_country_accepted (builtin_sum : list float -> float) (now : string)
    (f : form) (a : app) :
  name_accepted (strip (country_name f)) = true ->
  let c := country_of_form (strip (country_name f)) f in
  add_country builtin_sum now f a =
  match save_country now c (db a) with
  | Raise e =>
      ({| countries := dict_set (countries a) (name c) c; db := db a |}, AddError e)
  | Ok db' =>
      let a' := {| countries := dict_set (countries a) (name c) c; db := db' |} in
      match (_ ← display_risk_assessment builtin_sum c;
             update_country_list builtin_sum (dict_set (countries a) (name c) c)) with
      | Raise e => (a', AddError e)
      | Ok _ => (a', SavedInfo (name c))
      end
  end.
Proof.
  intros Hname c. unfold add_country.
  rewrite isalnum_remove_separators, Hname, (name_accepted_not_empty _ Hname).
  reflexivity.
Qed.

Lemma add_country_in_sync (builtin_sum : list float -> float) (now : string)
    (f : form) (a : app) :
  in_sync a ->
  name_accepted (strip (country_name f)) = true ->
  forallb fits_int64 (indicators (country_of_form (strip (country_name f)) f)) = true ->
  in_sync (fst (add_country builtin_sum now f a)) /\
  dict_get (countries (fst (add_country builtin_sum now f a)))
    (strip (country_name f)) =
    Some (country_of_form (strip (country_name f)) f).
Proof.
  intros (loaded & Hload & Hsync) Hname Hfits.
  rewrite (add_country_accepted builtin_sum now f a Hname).
  set (c := country_of_form (strip (country_name f)) f) in *.
  destruct (save_then_load now c (db a) Hfits (load_typed _ _ Hload))
    as (db' & loaded' & Hsave & _ & Hload' & Hget & _).
  rewrite Hsave. cbn zeta.
  assert (Hgoal : in_sync {| countries := dict_set (countries a) (name c) c; db := db' |} /\
                  dict_get (dict_set (countries a) (name c) c) (name c) = Some c).
  { split; [|apply dict_get_set_eq].
    exists loaded'. cbn [countries db]. split; [exact Hload'|].
    intros key. rewrite dict_get_set.
    destruct (String.eqb_spec (name c) key) as [<-|Hne].
    - symmetry. exact Hget.
    - rewrite Hsync. symmetry.
      apply (save_country_get_other now c (db a) db'); auto. }
  destruct (_ ← display_risk_assessment builtin_sum c;
            update_country_list builtin_sum (dict_set (countries a) (name c) c));
    exact Hgoal.
Qed.

(** X7: an accepted form whose indicators fit 64-bit integers keeps the
    registry and the store in step, whatever the dialog, and leaves the
    record of the form under the stripped name. *)
Theorem add_country_keeps_sync (builtin_sum : list float -> float) (now : string)
    (f : form) (a : app) :
  in_sync a ->
  name_accepted (strip (country_name f)) = true ->
  forallb fits_int64 (indicators (country_of_form (strip (country_name f)) f)) = true ->
  in_sync (fst (add_country builtin_sum now f a)) /\
  dict_get (countries (fst (add_country builtin_sum now f a)))
    (strip (country_name f)) =
    Some (country_of_form (strip (country_name f)) f).
Proof. apply add_country_in_sync. Qed.

Lemma in_sync_fresh_app : in_sync fresh_app.
Proof. exists []. split; reflexivity. Qed.

Lemma add_country_keeps_sync_witness :
  in_sync (fst (add_country PyFloat.sum "2024-01-01 00:00:00"
                  (form_of " Brazil-2 " sample_record) fresh_app)).
Proof.
  apply (add_country_keeps_sync PyFloat.sum "2024-01-01 00:00:00"
           (form_of " Brazil-2 " sample_record) fresh_app);
    [exact in_sync_fresh_app|reflexivity|reflexivity].
Defined.

(** X8: an accepted form with an indicator that does not fit a 64-bit
    integer ends with the error dialog of [OverflowError]; the store is as
    before, but the registry already holds the record, which was entered
    before the save. *)
Theorem add_country_overflow (builtin_sum : list float -> float) (now : string)
    (f : form) (a : app) :
  name_accepted (strip (country_name f)) = true ->
  forallb fits_int64 (indicators (country_of_form (strip (country_name f)) f)) = false ->
  add_country builtin_sum now f a =
    ({| countries := dict_set (countries a) (strip (country_name f))
                       (country_of_form (strip (country_name f)) f);
        db := db a |},
     AddError OverflowError).
Proof.
  intros Hname Hfits.
  rewrite (add_country_accepted builtin_sum now f a Hname).
  unfold save_country. rewrite Hfits. reflexivity.
Qed.

Definition overflowing_record : CountryData :=
  {| name := "Brazil-2";
     political_stability := Build_PoliticalStabilityMetrics (2 ^ 63) 6 5 3;
     security_environment := Build_SecurityEnvironmentMetrics 7 4 6 5;
     economic_stability := Build_EconomicStabilityMetrics 5 6 4 5;
     social_indicators := Build_SocialIndicatorsMetrics 6 7 5 4;
     illicit_markets := Build_IllicitMarketsMetrics 8 6 5 7 6 5;
     key_risk_factors := "";
     trend_analysis := "";
     recommendations := "" |}.

Lemma add_country_overflow_witness :
  add_country PyFloat.sum "2024-01-01 00:00:00"
    (form_of "Brazil-2" overflowing_record) fresh_app =
  ({| countries := [("Brazil-2", overflowing_record)]; db := init_database None |},
   AddError OverflowError).
Proof.
  exact (add_country_overflow PyFloat.sum "2024-01-01 00:00:00"
           (form_of "Brazil-2" overflowing_record) fresh_app eq_refl eq_refl).
Defined.

(** ** Stripping *)

Definition starts_with_space (s : string) : bool :=
  match s with
  | EmptyString => false
  | String c _ => isspace_char c
  end.

Fixpoint ends_with_space (s : string) : bool :=
  match s with
  | EmptyString => false
  | String c EmptyString => isspace_char c
  | String _ s' => ends_with_space s'
  end.

Lemma append_cons (c : ascii) (a b : string) :
  (String c a ++ b)%string = String c (a ++ b)%string.
Proof. reflexivity. Qed.

Lemma lstrip_spec (s : string) :
  starts_with_space (lstrip s) = false /\
  exists l, s = (l ++ lstrip s)%string /\ string_forallb isspace_char l = true.
Proof.
  induction s as [|c s [IH1 (l & IH2 & IH3)]].
  - split; [reflexivity|]. exists EmptyString. split; reflexivity.
  - cbn [lstrip]. destruct (isspace_char c) eqn:Hc.
    + split; [exact IH1|]. exists (String c l). split.
      * rewrite append_cons. f_equal. exact IH2.
      * cbn [string_forallb]. rewrite Hc. exact IH3.
    + split; [exact Hc|]. exists EmptyString. split; reflexivity.
Qed.

Lemma lstrip_id (s : string) : starts_with_space s = false -> lstrip s = s.
Proof. destruct s as [|c s]; [reflexivity|]. cbn. intros ->. reflexivity. Qed.

Lemma rstrip_spec (s : string) :
  ends_with_space (rstrip s) = false /\
  starts_with_space (rstrip s) = starts_with_space s && negb (is_empty (rstrip s)) /\
  exists r, s = (rstrip s ++ r)%string /\ string_forallb isspace_char r = true.
Proof.
  induction s as [|c s (IH1 & IH2 & r & IH3 & IH4)].
  - repeat split. exists EmptyString. split; reflexivity.
  - cbn [rstrip]. destruct (isspace_char c && is_empty (rstrip s)) eqn:Hc.
    + apply andb_true_iff in Hc as [Hc Hempty].
      split; [reflexivity|]. split; [cbn; rewrite andb_false_r; reflexivity|].
      exists (String c r). destruct (rstrip s); [|discriminate].
      split.
      * rewrite IH3 at 1. reflexivity.
      * cbn [string_forallb]. rewrite Hc. exact IH4.
    + split; [|split].
      * destruct (rstrip s) eqn:Hr; [|exact IH1].
        cbn in *. rewrite andb_true_r in Hc. exact Hc.
      * cbn. rewrite andb_true_r. reflexivity.
      * exists r. split; [|exact IH4].
        rewrite append_cons. f_equal. exact IH3.
Qed.

Lemma rstrip_id (s : string) : ends_with_space s = false -> rstrip s = s.
Proof.
  induction s as [|c s IH]; [reflexivity|].
  cbn [ends_with_space rstrip]. destruct s as [|c' s].
  - cbn. intros ->. reflexivity.
  - intros Hs. rewrite (IH Hs). rewrite andb_false_r. reflexivity.
Qed.

Lemma strip_idempotent (s : string) : strip (strip s) = strip s.
Proof.
  unfold strip.
  destruct (rstrip_spec (lstrip s)) as (Hend & Hstart & _).
  rewrite (proj1 (lstrip_spec s)) in Hstart. cbn in Hstart.
  rewrite (lstrip_id _ Hstart). apply rstrip_id, Hend.
Qed.

Lemma lstrip_all_space (w : string) :
  string_forallb isspace_char w = true -> lstrip w = EmptyString.
Proof.
  induction w as [|c w IH]; [reflexivity|]. cbn.
  intros [-> Hw]%andb_true_iff. apply IH, Hw.
Qed.

Lemma rstrip_app_space (s w : string) :
  string_forallb isspace_char w = true -> rstrip (s ++ w) = rstrip s.
Proof.
  intros Hw. induction s as [|c s IH].
  - change (EmptyString ++ w)%string with w.
    induction w as [|c w IHw]; [reflexivity|].
    cbn in *. apply andb_true_iff in Hw as [-> Hw]. rewrite (IHw Hw). reflexivity.
  - rewrite append_cons. cbn [rstrip]. rewrite IH. reflexivity.
Qed.

Lemma strip_app_space (s w : string) :
  string_forallb isspace_char w = true -> strip (s ++ w) = strip s.
Proof.
  intros Hw. unfold strip.
  induction s as [|c s IH].
  - change (EmptyString ++ w)%string with w.
    rewrite (lstrip_all_space w Hw). reflexivity.
  - rewrite append_cons. cbn [lstrip]. destruct (isspace_char c); [exact IH|].
    rewrite <- append_cons. apply rstrip_app_space, Hw.
Qed.

Lemma strip_text_get (s : string) : strip (text_get s) = strip s.
Proof. apply strip_app_space. reflexivity. Qed.

(** X9: the name under which [add_country] enters a record is the typed
    name without the whitespace around it: it is not empty, neither begins
    nor ends with whitespace, and the registry holds the record under it. *)
Theorem stored_name_is_stripped (builtin_sum : list float -> float) (now : string)
    (f : form) (a : app) :
  name_accepted (strip (country_name f)) = true ->
  let stored := strip (country_name f) in
  dict_get (countries (fst (add_country builtin_sum now f a))) stored =
    Some (country_of_form stored f) /\
  (exists l r : string,
     country_name f = (l ++ stored ++ r)%string /\
     string_forallb isspace_char l = true /\
     string_forallb isspace_char r = true) /\
  is_empty stored = false /\
  starts_with_space stored = false /\
  ends_with_space stored = false.
Proof.
  intros Hname stored. split; [|split; [|split; [|split]]].
  - rewrite (add_country_accepted builtin_sum now f a Hname).
    fold stored. cbn zeta.
    destruct (save_country now (country_of_form stored f) (db a));
      [destruct (_ ← display_risk_assessment builtin_sum (country_of_form stored f);
                 update_country_list builtin_sum _)|];
      apply dict_get_set_eq.
  - destruct (lstrip_spec (country_name f)) as (_ & l & Hl & Hlsp).
    destruct (rstrip_spec (lstrip (country_name f))) as (_ & _ & r & Hr & Hrsp).
    exists l, r. split; [|split; assumption].
    rewrite Hl at 1. rewrite Hr at 1. reflexivity.
  - apply name_accepted_not_empty, Hname.
  - subst stored. unfold strip.
    destruct (rstrip_spec (lstrip (country_name f))) as (_ & -> & _).
    rewrite (proj1 (lstrip_spec (country_name f))). reflexivity.
  - subst stored. unfold strip.
    exact (proj1 (rstrip_spec (lstrip (country_name f)))).
Qed.

Lemma stored_name_is_stripped_witness :
  dict_get (countries (fst (add_country PyFloat.sum "2024-01-01 00:00:00"
                              (form_of " Brazil-2 " sample_record) fresh_app)))
    "Brazil-2" =
  Some (country_of_form "Brazil-2" (form_of " Brazil-2 " sample_record)).
Proof.
  exact (proj1 (stored_name_is_stripped PyFloat.sum "2024-01-01 00:00:00"
                  (form_of " Brazil-2 " sample_record) fresh_app eq_refl)).
Defined.

(** X10: a record that [add_country] built, put back into the form by
    [populate_form] and added again without an edit, is accepted and built
    again as the same record. *)
Theorem populate_form_round_trip (f : form) :
  name_accepted (strip (country_name f)) = true ->
  let c := country_of_form (strip (country_name f)) f in
  name_accepted (strip (country_name (populate_form c))) = true /\
  country_of_form (strip (country_name (populate_form c))) (populate_form c) = c.
Proof.
  intros Hname c. subst c. unfold populate_form, country_of_form.
  cbn [country_name political_stability_vars security_environment_vars
       economic_stability_vars social_indicators_vars illicit_markets_vars
       key_risk_factors_text trend_analysis_text recommendations_text
       name political_stability security_environment economic_stability
       social_indicators illicit_markets key_risk_factors trend_analysis
       recommendations].
  rewrite !strip_text_get, !strip_idempotent.
  split; [exact Hname|reflexivity].
Qed.

Lemma populate_form_round_trip_witness :
  country_of_form (strip (country_name (populate_form sample_record)))
    (populate_form sample_record) = sample_record.
Proof.
  exact (proj2 (populate_form_round_trip (form_of " Brazil-2 " sample_record) eq_refl)).
Defined.

(** ** The list of saved countries *)

(** [del d[key]] *)
Fixpoint dict_del {V : Type} (d : dict V) (key : string) : result (dict V) :=
  match d with
  | [] => Raise (KeyError key)
  | (k, v) :: d' =>
      if String.eqb k key then Ok d'
      else match dict_del d' key with
           | Ok d'' => Ok ((k, v) :: d'')
           | Raise e => Raise e
           end
  end.

Module CountryRiskApp.

(** The application with the value of its dropdown,
    [country_dropdown.get()]. *)
Record window : Type := {
  state : app;
  dropdown : string
}.

(** How [delete_country] ends: one of its message boxes, or an exception
    that nothing catches. *)
Inductive outcome : Type :=
| SelectWarning               (* "Please select a country" *)
| Cancelled                   (* the confirmation answered with no *)
| DeletedInfo (name : string) (* "'...' deleted" *)
| Uncaught (e : exn).

(** What [update_country_list] does to the dropdown: the first of the
    sorted names is selected; with no name left the selection stays. *)
Definition dropdown_after (registry : dict CountryData) (selection : string) : string :=
  match sorted (map fst registry) with
  | [] => selection
  | first :: _ => first
  end.

Section Delete.

Variable builtin_sum : list float -> float.

Definition delete_country (confirm : bool) (w : window) : window * outcome :=
  let selected := dropdown w in
  if is_empty selected then (w, SelectWarning)
  else if negb confirm then (w, Cancelled)
  else
    let db' := delete_country selected (db (state w)) in
    match dict_del (countries (state w)) selected with
    | Raise e =>
        ({| state := {| countries := countries (state w); db := db' |};
            dropdown := selected |},
         Uncaught e)
    | Ok registry =>
        let w' := {| state := {| countries := registry; db := db' |};
                     dropdown := dropdown_after registry selected |} in
        match update_country_list builtin_sum registry with
        | Raise e => (w', Uncaught e)
        | Ok _ => (w', DeletedInfo selected)
        end
    end.

End Delete.

End CountryRiskApp.

Lemma dict_del_get {V : Type} (d d' : dict V) (key : string) :
  dict_del d key = Ok d' ->
  (exists v, dict_get d key = Some v) /\
  forall key', key' <> key -> dict_get d' key' = dict_get d key'.
Proof.
  revert d'. induction d as [|[k v] d IH]; intros d' Hdel; [discriminate|].
  cbn [dict_del dict_get] in *.
  destruct (String.eqb_spec k key) as [->|Hk].
  - injection Hdel as <-. split; [eauto|].
    intros key' Hne. apply String.eqb_neq in Hne.
    rewrite String.eqb_sym, Hne. reflexivity.
  - destruct (dict_del d key) as [d''|e]; [|discriminate].
    injection Hdel as <-. destruct (IH d'' eq_refl) as [Hsome Hother].
    split; [exact Hsome|].
    intros key' Hne. cbn [dict_get]. rewrite (Hother key' Hne). reflexivity.
Qed.

Lemma dict_del_absent {V : Type} (d : dict V) (key : string) :
  dict_get d key = None -> dict_del d key = Raise (KeyError key).
Proof.
  induction d as [|[k v] d IH]; [reflexivity|].
  cbn [dict_del dict_get]. destruct (String.eqb k key); [discriminate|].
  intros Hget. rewrite (IH Hget). reflexivity.
Qed.

Lemma dict_del_present {V : Type} (d : dict V) (key : string) (v : V) :
  dict_get d key = Some v -> exists d', dict_del d key = Ok d'.
Proof.
  induction d as [|[k v'] d IH]; [discriminate|].
  cbn [dict_del dict_get]. destruct (String.eqb k key); [eauto|].
  intros Hget. destruct (IH Hget) as [d' ->]. eauto.
Qed.

Lemma dict_get_none_keys {V : Type} (d : dict V) (key : string) :
  ~ In key (map fst d) -> dict_get d key = None.
Proof.
  induction d as [|[k v] d IH]; [reflexivity|].
  cbn [map fst dict_get]. intros Hin.
  destruct (String.eqb_spec k key) as [->|Hk].
  - exfalso. apply Hin. left. reflexivity.
  - apply IH. intros Hin'. apply Hin. right. exact Hin'.
Qed.

Lemma dict_del_gone {V : Type} (d d' : dict V) (key : string) :
  List.NoDup (map fst d) -> dict_del d key = Ok d' -> dict_get d' key = None.
Proof.
  revert d'. induction d as [|[k v] d IH]; intros d' Hnd Hdel; [discriminate|].
  cbn [map fst] in Hnd. apply List.NoDup_cons_iff in Hnd as [Hk Hnd].
  cbn [dict_del] in Hdel.
  destruct (String.eqb_spec k key) as [->|Hne].
  - injection Hdel as <-. apply dict_get_none_keys, Hk.
  - destruct (dict_del d key) as [d''|e] eqn:Hd; [|discriminate].
    injection Hdel as <-. cbn [dict_get].
    apply String.eqb_neq in Hne. rewrite Hne. apply (IH d'' Hnd eq_refl).
Qed.

(** X11: with the registry and the store in step and the selected country
    in the registry, a confirmed delete removes the country from both and
    leaves them in step; every other country stays in the registry. *)
Theorem delete_keeps_sync (builtin_sum : list float -> float)
    (w : CountryRiskApp.window) (c : CountryData) :
  let selected := CountryRiskApp.dropdown w in
  let a := CountryRiskApp.state w in
  let w' := fst (CountryRiskApp.delete_country builtin_sum true w) in
  in_sync a ->
  List.NoDup (map fst (countries a)) ->
  dict_get (countries a) selected = Some c ->
  is_empty selected = false ->
  in_sync (CountryRiskApp.state w') /\
  dict_get (countries (CountryRiskApp.state w')) selected = None /\
  db (CountryRiskApp.state w') = delete_country selected (db a) /\
  forall key, key <> selected ->
    dict_get (countries (CountryRiskApp.state w')) key = dict_get (countries a) key.
Proof.
  intros selected a w' (loaded & Hload & Hsync) Hnd Hget Hsel.
  destruct (dict_del_present _ _ _ Hget) as [registry Hdel].
  destruct (dict_del_get _ _ _ Hdel) as [_ Hother].
  pose proof (dict_del_gone _ _ _ Hnd Hdel) as Hgone.
  destruct (delete_country_get selected (db a) loaded Hload)
    as (after & Hafter & Hnone & Hrest).
  assert (Hstate : CountryRiskApp.state w' =
                   {| countries := registry; db := delete_country selected (db a) |}).
  { subst w'. unfold CountryRiskApp.delete_country.
    fold selected a. rewrite Hsel, Hdel. cbn [negb].
    destruct (update_country_list builtin_sum registry); reflexivity. }
  rewrite Hstate. cbn [countries db].
  split; [|split; [exact Hgone|split; [reflexivity|exact Hother]]].
  exists after. cbn [countries db]. split; [exact Hafter|].
  intros key. destruct (String.eqb_spec key selected) as [->|Hne].
  - rewrite Hgone, Hnone. reflexivity.
  - rewrite (Hother key Hne), (Hrest key Hne). apply Hsync.
Qed.

(** The window after the sample record is added to a fresh application. *)
Definition sample_window : CountryRiskApp.window :=
  {| CountryRiskApp.state :=
       {| countries := [("Brazil-2", sample_record)]; db := sample_database |};
     CountryRiskApp.dropdown := "Brazil-2" |}.

Lemma delete_keeps_sync_witness :
  in_sync (CountryRiskApp.state
             (fst (CountryRiskApp.delete_country PyFloat.sum true sample_window))).
Proof.
  apply (delete_keeps_sync PyFloat.sum sample_window sample_record).
  - exists [("Brazil-2", sample_record)]. split; reflexivity.
  - repeat constructor. intros [].
  - reflexivity.
  - reflexivity.
Defined.

(** X12: when the last country is deleted the dropdown keeps its name; a
    second confirmed delete then runs the [DELETE] on the database and ends
    in the [KeyError] of [del self.countries[selected]], which nothing
    catches. *)
Theorem delete_last_twice (builtin_sum : list float -> float)
    (w : CountryRiskApp.window) (c : CountryData) :
  let selected := CountryRiskApp.dropdown w in
  let first := CountryRiskApp.delete_country builtin_sum true w in
  countries (CountryRiskApp.state w) = [(selected, c)] ->
  is_empty selected = false ->
  snd first = CountryRiskApp.DeletedInfo selected /\
  countries (CountryRiskApp.state (fst first)) = [] /\
  CountryRiskApp.dropdown (fst first) = selected /\
  snd (CountryRiskApp.delete_country builtin_sum true (fst first)) =
    CountryRiskApp.Uncaught (KeyError selected).
Proof.
  intros selected first Hreg Hsel.
  assert (Hfirst : first =
            ({| CountryRiskApp.state :=
                  {| countries := [];
                     db := delete_country selected (db (CountryRiskApp.state w)) |};
                CountryRiskApp.dropdown := selected |},
             CountryRiskApp.DeletedInfo selected)).
  { subst first. unfold CountryRiskApp.delete_country. fold selected.
    rewrite Hsel, Hreg. cbn [negb dict_del].
    rewrite String.eqb_refl. reflexivity. }
  rewrite Hfirst. cbn [fst snd CountryRiskApp.state CountryRiskApp.dropdown countries].
  split; [reflexivity|]. split; [reflexivity|]. split; [reflexivity|].
  unfold CountryRiskApp.delete_country.
  cbn [CountryRiskApp.state CountryRiskApp.dropdown countries].
  rewrite Hsel. reflexivity.
Qed.

Lemma delete_last_twice_witness :
  snd (CountryRiskApp.delete_country PyFloat.sum true
         (fst (CountryRiskApp.delete_country PyFloat.sum true sample_window))) =
  CountryRiskApp.Uncaught (KeyError "Brazil-2").
Proof.
  apply (delete_last_twice PyFloat.sum sample_window sample_record);
    reflexivity.
Defined.

(** ** Colours as RGB triples *)

(** [s.lstrip(c)] for a single character [c] *)
Fixpoint lstrip_char (c : ascii) (s : string) : string :=
  match s with
  | EmptyString => EmptyString
  | String c' s' => if Ascii.eqb c' c then lstrip_char c s' else s
  end.

(** [s[i:j]] for [0 <= i <= j] *)
Definition slice (i j : nat) (s : string) : string := substring i (j - i) s.

Definition hex_digit (c : ascii) : option Z :=
  let n := Z.of_N (N_of_ascii c) in
  if (48 <=? n) && (n <=? 57) then Some (n - 48)
  else if (97 <=? n) && (n <=? 102) then Some (n - 87)
  else if (65 <=? n) && (n <=? 70) then Some (n - 55)
  else None.

Fixpoint hex_value (acc : Z) (s : string) : option Z :=
  match s with
  | EmptyString => Some acc
  | String c s' =>
      match hex_digit c with
      | Some d => hex_value (16 * acc + d) s'
      | None => None
      end
  end.

(** [int(s, 16)] on a text of hexadecimal digits.  [None] is the
    [ValueError] of a text that is no numeral; Python also reads a sign, a
    [0x] prefix, underscores and surrounding whitespace, which this model
    refuses, so a value in the model is the value in Python. *)
Definition int_base16 (s : string) : option Z :=
  if is_empty s then None else hex_value 0 s.

Inductive rgb_outcome : Type :=
| RgbTuple (r g b : float)
| RgbValueError
| RgbRaise (e : exn).

Definition rgb_of_hex (hex_color : string) : rgb_outcome :=
  let hex_color := lstrip_char "#" hex_color in
  let channel (i : nat) : option float :=
    n ← int_base16 (slice i (i + 2) hex_color);
    Some (PyFloat.div (PyFloat.of_int n) (PyFloat.literal 2550 1)) in
  match channel 0%nat, channel 2%nat, channel 4%nat with
  | Some r, Some g, Some b => RgbTuple r g b
  | _, _, _ => RgbValueError
  end.

Definition get_threat_color_rgb (builtin_sum : list float -> float)
    (self : CountryData) : rgb_outcome :=
  match get_threat_color builtin_sum self with
  | Ok hex_color => rgb_of_hex hex_color
  | Raise e => RgbRaise e
  end.

(** The red, green and blue bytes of the six colours. *)
Definition color_bytes : dict (Z * Z * Z) :=
  [ ("LOW", (40, 167, 69));
    ("MODERATE", (255, 193, 7));
    ("ELEVATED", (23, 162, 184));
    ("HIGH", (253, 126, 20));
    ("EXTREME", (220, 53, 69));
    ("UNDEFINED", (108, 117, 125)) ].

Definition unit_interval (x : float) : bool :=
  PyFloat.leb (S754_zero false) x && PyFloat.leb x (PyFloat.literal 10 1).

(** The quotient of a byte by 255.0. *)
Definition channel_of_byte (n : Z) : float :=
  PyFloat.div (PyFloat.of_int n) (PyFloat.literal 2550 1).

Lemma rgb_of_level (level : string) :
  In level levels ->
  exists r g b : Z,
    dict_get color_bytes level = Some (r, g, b) /\
    rgb_of_hex (dict_get_default colors_map level "#6c757d") =
      RgbTuple (channel_of_byte r) (channel_of_byte g) (channel_of_byte b) /\
    unit_interval (channel_of_byte r) = true /\
    unit_interval (channel_of_byte g) = true /\
    unit_interval (channel_of_byte b) = true.
Proof.
  intros Hin. cbn in Hin.
  repeat (destruct Hin as [<-|Hin];
          [do 3 eexists; split; [reflexivity|];
           split; [vm_compute; reflexivity|];
           repeat split; vm_compute; reflexivity|]).
  contradiction.
Qed.

(** X13: [get_threat_color_rgb] never fails on the colour of a level:
    whenever the level of the record is computed, the result is the triple
    of the red, green and blue bytes of that level's colour, each divided by
    255.0 and so between 0.0 and 1.0; otherwise it raises what
    [get_threat_color] raises. *)
Theorem threat_color_rgb_in_unit_interval (builtin_sum : list float -> float)
    (self : CountryData) :
  match get_threat_level builtin_sum self with
  | Ok level =>
      exists r g b : Z,
        dict_get color_bytes level = Some (r, g, b) /\
        get_threat_color_rgb builtin_sum self =
          RgbTuple (channel_of_byte r) (channel_of_byte g) (channel_of_byte b) /\
        unit_interval (channel_of_byte r) = true /\
        unit_interval (channel_of_byte g) = true /\
        unit_interval (channel_of_byte b) = true
  | Raise e => get_threat_color_rgb builtin_sum self = RgbRaise e
  end.
Proof.
  unfold get_threat_color_rgb, get_threat_color, get_threat_level.
  destruct (calculate_threat_score builtin_sum self) as [score|e];
    cbn [mbind result_bind]; [|reflexivity].
  apply rgb_of_level, threat_level_of_score_in_levels.
Qed.

(** ** Valid records without a level *)

Lemma leb_false_ltb (a b : float) :
  PyFloat.leb a a = true -> PyFloat.leb b b = true ->
  PyFloat.leb a b = false -> PyFloat.ltb b a = true.
Proof. float_order_cases. Qed.

Lemma leb_refl_l (a b : float) : PyFloat.leb a b = true -> PyFloat.leb b b = true.
Proof. float_order_cases. Qed.

Lemma leb_refl_r (a b : float) : PyFloat.leb a b = true -> PyFloat.leb a a = true.
Proof. float_order_cases. Qed.

(** A score in [1.0, 10.0] that lies in no band lies in a gap. *)
Lemma out_of_bands_in_gap (score : float) :
  score_in_range score = true ->
  ~ LOW_band score -> ~ MODERATE_band score -> ~ ELEVATED_band score ->
  ~ HIGH_band score -> ~ EXTREME_band score ->
  exists hi lo, In (hi, lo) gaps /\
    PyFloat.ltb hi score = true /\ PyFloat.ltb score lo = true.
Proof.
  unfold score_in_range, LOW_band, MODERATE_band, ELEVATED_band, HIGH_band,
    EXTREME_band, in_band.
  intros [Hlo Hhi]%andb_true_iff H1 H2 H3 H4 H5.
  pose proof (leb_refl_l _ _ Hlo) as Hs.
  assert (Hup : forall b, PyFloat.leb b b = true ->
                  PyFloat.leb score b = false -> PyFloat.ltb b score = true)
    by (intros b Hb; apply leb_false_ltb; assumption).
  assert (Hdown : forall b, PyFloat.leb b b = true ->
                    PyFloat.leb b score = false -> PyFloat.ltb score b = true)
    by (intros b Hb; apply leb_false_ltb; assumption).
  destruct (PyFloat.leb score (PyFloat.literal 20 1)) eqn:E20; [tauto|].
  apply Hup in E20; [|reflexivity].
  destruct (PyFloat.leb (PyFloat.literal 21 1) score) eqn:E21.
  2: { apply Hdown in E21; [|reflexivity].
       do 2 eexists. split; [left; reflexivity|]. split; assumption. }
  destruct (PyFloat.leb score (PyFloat.literal 40 1)) eqn:E40; [tauto|].
  apply Hup in E40; [|reflexivity].
  destruct (PyFloat.leb (PyFloat.literal 41 1) score) eqn:E41.
  2: { apply Hdown in E41; [|reflexivity].
       do 2 eexists. split; [right; left; reflexivity|]. split; assumption. }
  destruct (PyFloat.leb score (PyFloat.literal 60 1)) eqn:E60; [tauto|].
  apply Hup in E60; [|reflexivity].
  destruct (PyFloat.leb (PyFloat.literal 61 1) score) eqn:E61.
  2: { apply Hdown in E61; [|reflexivity].
       do 2 eexists. split; [right; right; left; reflexivity|]. split; assumption. }
  destruct (PyFloat.leb score (PyFloat.literal 80 1)) eqn:E80; [tauto|].
  apply Hup in E80; [|reflexivity].
  destruct (PyFloat.leb (PyFloat.literal 81 1) score) eqn:E81.
  2: { apply Hdown in E81; [|reflexivity].
       do 2 eexists. split; [right; right; right; left; reflexivity|].
       split; assumption. }
  tauto.
Qed.

Lemma in_gap_undefined (score hi lo : float) :
  In (hi, lo) gaps ->
  PyFloat.ltb hi score = true -> PyFloat.ltb score lo = true ->
  threat_level_of_score score = "UNDEFINED".
Proof.
  intros Hin Hhi Hlo.
  destruct (threat_level_of_score_cases score)
    as [[Hb _]|[[Hb _]|[[Hb _]|[[Hb _]|[[Hb _]|[_ Hl]]]]]]; [..|exact Hl].
  all: exfalso.
  all: unfold LOW_band, MODERATE_band, ELEVATED_band, HIGH_band, EXTREME_band in Hb.
  all: unfold gaps in Hin; cbn [In] in Hin.
  all: repeat (destruct Hin as [Hin|Hin];
               [ apply pair_equal_spec in Hin as [<- <-];
                 first [ gap_clash | idtac ] | ]);
       try contradiction.
Qed.

(** X14: the level of a valid record is UNDEFINED exactly when its score
    falls strictly between two bands; a valid record can have such a
    score. *)
Theorem valid_undefined_iff_gap (c : CountryData) :
  valid_record c = true ->
  exists score : float,
    calculate_threat_score PyFloat.sum c = Ok score /\
    get_threat_level PyFloat.sum c = Ok (threat_level_of_score score) /\
    (threat_level_of_score score = "UNDEFINED" <->
     exists hi lo, In (hi, lo) gaps /\
       PyFloat.ltb hi score = true /\ PyFloat.ltb score lo = true).
Proof.
  intros Hv.
  destruct (calculate_threat_score_valid PyFloat.sum c Hv)
    as (x1 & x2 & x3 & x4 & x5 & Hscore & H4 & H5).
  pose proof (sum_loop_in_range_sound _ PyFloat.add (fun x => x) _ _ _ _ _
                sum_in_range H4 H5) as Hrange.
  change (fold_left PyFloat.add [x1; x2; x3; x4; x5] (S754_zero false))
    with (PyFloat.sum [x1; x2; x3; x4; x5]) in Hrange.
  exists (PyFloat.sum [x1; x2; x3; x4; x5]).
  split; [exact Hscore|]. split.
  { unfold get_threat_level. rewrite Hscore. reflexivity. }
  split.
  - intros Hundef.
    destruct (threat_level_of_score_cases (PyFloat.sum [x1; x2; x3; x4; x5]))
      as [[_ Hl]|[[_ Hl]|[[_ Hl]|[[_ Hl]|[[_ Hl]|[Hb _]]]]]];
      try (rewrite Hl in Hundef; discriminate Hundef).
    destruct Hb as (B1 & B2 & B3 & B4 & B5).
    apply out_of_bands_in_gap; assumption.
  - intros (hi & lo & Hin & Hhi & Hlo).
    exact (in_gap_undefined _ hi lo Hin Hhi Hlo).
Qed.

(** A valid record without a level: every indicator 2, one social indicator
    3; its score 2.0375 lies between LOW and MODERATE. *)
Definition gap_record : CountryData :=
  {| name := "Gap";
     political_stability := Build_PoliticalStabilityMetrics 2 2 2 2;
     security_environment := Build_SecurityEnvironmentMetrics 2 2 2 2;
     economic_stability := Build_EconomicStabilityMetrics 2 2 2 2;
     social_indicators := Build_SocialIndicatorsMetrics 3 2 2 2;
     illicit_markets := Build_IllicitMarketsMetrics 2 2 2 2 2 2;
     key_risk_factors := "";
     trend_analysis := "";
     recommendations := "" |}.

Lemma valid_undefined_iff_gap_witness :
  valid_record gap_record = true /\
  get_threat_level PyFloat.sum gap_record = Ok "UNDEFINED" /\
  get_threat_description PyFloat.sum gap_record = Ok "Score out of range.".
Proof.
  destruct (valid_undefined_iff_gap gap_record eq_refl)
    as (score & Hscore & Hlevel & Hiff).
  split; [reflexivity|].
  assert (Hundef : threat_level_of_score score = "UNDEFINED").
  { apply Hiff. exists (PyFloat.literal 20 1), (PyFloat.literal 21 1).
    split; [left; reflexivity|].
    assert (Hs : Ok score = calculate_threat_score PyFloat.sum gap_record)
      by (symmetry; exact Hscore).
    vm_compute in Hs. injection Hs as ->.
    split; vm_compute; reflexivity. }
  split.
  - rewrite Hlevel, Hundef. reflexivity.
  - unfold get_threat_description. rewrite Hlevel, Hundef. reflexivity.
Defined.

(** ** The listbox *)

(** The line of [update_country_list] for a country; [score_text] is the
    score formatted with one decimal. *)
Definition listbox_entry (name level score_text : string) : string :=
  (name ++ " - " ++ level ++ " (" ++ score_text ++ ")")%string.

(** [s.split(sep)[0]]: the text before the first occurrence of [sep], all
    of [s] when there is none. *)
Fixpoint split_head (sep s : string) : string :=
  match s with
  | EmptyString => EmptyString
  | String c s' =>
      if String.prefix sep s then EmptyString else String c (split_head sep s')
  end.

(** [sep in s] *)
Fixpoint occurs (sep s : string) : bool :=
  match s with
  | EmptyString => String.prefix sep s
  | String _ s' => String.prefix sep s || occurs sep s'
  end.

(** [load_country_from_listbox]: the country that is put into the form for
    the selected line, if any. *)
Definition load_country_from_listbox (registry : dict CountryData)
    (display_text : string) : option CountryData :=
  dict_get registry (split_head " - " display_text).

Lemma prefix_empty (s : string) : String.prefix EmptyString s = true.
Proof. destruct s; reflexivity. Qed.

Lemma prefix_separator_window (name rest : string) (c : ascii) :
  String.prefix " - " (String c name ++ " - " ++ rest) =
  String.prefix " - " (String c name ++ " -").
Proof.
  destruct name as [|d [|e name]];
    repeat (rewrite ?append_cons; change (EmptyString ++ ?x)%string with x);
    cbn [String.prefix];
    repeat match goal with
    | |- context [ascii_dec ?a ?b] => destruct (ascii_dec a b)
    end; rewrite ?prefix_empty; reflexivity.
Qed.

Lemma split_head_entry (name rest : string) :
  split_head " - " (name ++ " - " ++ rest) = name <->
  occurs " - " (name ++ " -") = false.
Proof.
  induction name as [|c name IH].
  - split; intros _; [reflexivity|].
    change (split_head " - " (String " " (String "-" (String " " rest))) = "").
    cbn [split_head String.prefix].
    repeat match goal with
    | |- context [ascii_dec ?a ?b] => destruct (ascii_dec a b); [|congruence]
    end.
    rewrite prefix_empty. reflexivity.
  - rewrite !append_cons. cbn [split_head occurs].
    rewrite <- !append_cons, prefix_separator_window.
    destruct (String.prefix " - " (String c name ++ " -")).
    + split; discriminate.
    + cbn [orb]. rewrite <- IH. split.
      * intros [= H]. exact H.
      * intros ->. reflexivity.
Qed.

(** X15: the name that [load_country_from_listbox] reads back from a line
    of the listbox is the name of the line's country exactly when " - " does
    not occur in the name followed by " -"; then the country of the line is
    the one put into the form.  Accepted names such as "A - B" and "A -" are
    read back as "A". *)
Theorem listbox_name_round_trip (registry : dict CountryData)
    (name level score_text : string) :
  (split_head " - " (listbox_entry name level score_text) = name <->
   occurs " - " (name ++ " -") = false) /\
  (occurs " - " (name ++ " -") = false ->
   load_country_from_listbox registry (listbox_entry name level score_text) =
   dict_get registry name).
Proof.
  unfold load_country_from_listbox, listbox_entry.
  pose proof (split_head_entry name (level ++ " (" ++ score_text ++ ")")) as Hiff.
  split; [exact Hiff|].
  intros Hocc. apply Hiff in Hocc. rewrite Hocc. reflexivity.
Qed.

Lemma listbox_name_round_trip_witness :
  load_country_from_listbox [("Brazil-2", sample_record)]
    (listbox_entry "Brazil-2" "ELEVATED" "5.3") = Some sample_record /\
  name_accepted "A - B" = true /\
  split_head " - " (listbox_entry "A - B" "LOW" "1.0") = "A" /\
  name_accepted "A -" = true /\
  split_head " - " (listbox_entry "A -" "LOW" "1.0") = "A".
Proof.
  split.
  - exact (proj2 (listbox_name_round_trip [("Brazil-2", sample_record)]
                    "Brazil-2" "ELEVATED" "5.3") eq_refl).
  - repeat split.
Defined.

(** ** Forms from the sliders *)

Lemma insert_sorted_In (s x : string) (l : list string) :
  In x (insert_sorted s l) <-> x = s \/ In x l.
Proof.
  induction l as [|y l IH]; cbn [insert_sorted].
  - cbn. intuition congruence.
  - destruct (String.leb s y); cbn [In]; [intuition congruence|].
    rewrite IH. intuition congruence.
Qed.

Lemma sorted_In (x : string) (l : list string) : In x (sorted l) <-> In x l.
Proof.
  induction l as [|y l IH]; [reflexivity|].
  unfold sorted in *. cbn [fold_right In]. rewrite insert_sorted_In, IH.
  intuition congruence.
Qed.

Lemma dict_get_In {V : Type} (d : dict V) (key : string) :
  In key (map fst d) -> exists v, dict_get d key = Some v /\ In (key, v) d.
Proof.
  induction d as [|[k v] d IH]; [intros []|].
  cbn [map fst In dict_get].
  destruct (String.eqb_spec k key) as [->|Hne]; [eauto|].
  intros [Heq|Hin]; [congruence|].
  destruct (IH Hin) as (v' & Hget & Hv). eauto.
Qed.

Lemma dict_set_In {V : Type} (d : dict V) (key : string) (v : V) (k : string) (x : V) :
  In (k, x) (dict_set d key v) -> (k, x) = (key, v) \/ In (k, x) d.
Proof.
  induction d as [|[k' v'] d IH]; cbn [dict_set In].
  - intuition.
  - destruct (String.eqb_spec k' key) as [->|Hne]; cbn [In]; intuition.
Qed.

Lemma get_threat_level_valid (builtin_sum : list float -> float) (c : CountryData) :
  valid_record c = true ->
  exists score,
    calculate_threat_score builtin_sum c = Ok score /\
    get_threat_level builtin_sum c = Ok (threat_level_of_score score) /\
    get_threat_description builtin_sum c =
      Ok (dict_get_default descriptions (threat_level_of_score score) "N/A").
Proof.
  intros Hv.
  destruct (calculate_threat_score_valid builtin_sum c Hv)
    as (x1 & x2 & x3 & x4 & x5 & Hscore & _).
  eexists. split; [exact Hscore|].
  unfold get_threat_description, get_threat_level. rewrite Hscore. split; reflexivity.
Qed.

Lemma update_country_list_valid (builtin_sum : list float -> float)
    (registry : dict CountryData) :
  Forall (fun entry => valid_record (snd entry) = true) registry ->
  update_country_list builtin_sum registry = Ok tt.
Proof.
  intros Hvalid. unfold update_country_list.
  assert (Hnames : forall name, In name (sorted (map fst registry)) ->
                                In name (map fst registry))
    by (intros name; apply sorted_In).
  induction (sorted (map fst registry)) as [|name names IH]; [reflexivity|].
  cbn [fold_left mbind result_bind].
  destruct (dict_get_In registry name (Hnames name (or_introl eq_refl)))
    as (c & Hget & Hin).
  unfold dict_item. rewrite Hget. cbn [mbind result_bind].
  rewrite Forall_forall in Hvalid. pose proof (Hvalid _ Hin) as Hc. cbn [snd] in Hc.
  destruct (get_threat_level_valid builtin_sum c Hc) as (score & Hscore & Hlevel & _).
  rewrite Hlevel, Hscore. cbn [mbind result_bind].
  apply IH. intros n Hn. apply Hnames. right. exact Hn.
Qed.

Lemma display_risk_assessment_valid (builtin_sum : list float -> float)
    (c : CountryData) :
  valid_record c = true -> display_risk_assessment builtin_sum c = Ok tt.
Proof.
  intros Hv. unfold display_risk_assessment.
  destruct (valid_record_categories c Hv) as (H1 & H2 & H3 & H4 & H5).
  rewrite (proj1 (calculate_category_score_valid _ H1)),
    (proj1 (calculate_category_score_valid _ H2)),
    (proj1 (calculate_category_score_valid _ H3)),
    (proj1 (calculate_category_score_valid _ H4)),
    (proj1 (calculate_category_score_valid _ H5)).
  destruct (get_threat_level_valid builtin_sum c Hv) as (score & -> & -> & ->).
  reflexivity.
Qed.

(** X16: a form with an accepted name and every indicator in [1,10], as the
    sliders give them, added while the registry holds valid records only,
    ends with the success dialog: the record is saved, entered in the
    registry, and the registry still holds valid records only. *)
Theorem add_country_succeeds (builtin_sum : list float -> float) (now : string)
    (f : form) (a : app) :
  let stored := strip (country_name f) in
  name_accepted stored = true ->
  valid_record (country_of_form stored f) = true ->
  Forall (fun entry => valid_record (snd entry) = true) (countries a) ->
  exists db' : database,
    save_country now (country_of_form stored f) (db a) = Ok db' /\
    add_country builtin_sum now f a =
      ({| countries := dict_set (countries a) stored (country_of_form stored f);
          db := db' |},
       SavedInfo stored) /\
    Forall (fun entry => valid_record (snd entry) = true)
      (dict_set (countries a) stored (country_of_form stored f)).
Proof.
  intros stored Hname Hv Hreg.
  assert (Hreg' : Forall (fun entry => valid_record (snd entry) = true)
                    (dict_set (countries a) stored (country_of_form stored f))).
  { apply Forall_forall. intros [k x] Hin.
    apply dict_set_In in Hin as [[= -> ->]|Hin]; [exact Hv|].
    rewrite Forall_forall in Hreg. exact (Hreg _ Hin). }
  pose proof (save_country_rows now (country_of_form stored f) (db a)
                (valid_indicator_fits _ Hv)) as Hsave.
  eexists. split; [exact Hsave|]. split; [|exact Hreg'].
  rewrite (add_country_accepted builtin_sum now f a Hname). fold stored.
  rewrite Hsave. cbn zeta.
  rewrite (display_risk_assessment_valid builtin_sum _ Hv).
  cbn [mbind result_bind name country_of_form].
  rewrite (update_country_list_valid builtin_sum _ Hreg'). reflexivity.
Qed.

Lemma add_country_succeeds_witness :
  snd (add_country PyFloat.sum "2024-01-01 00:00:00"
         (form_of " Brazil-2 " sample_record) fresh_app) = SavedInfo "Brazil-2".
Proof.
  destruct (add_country_succeeds PyFloat.sum "2024-01-01 00:00:00"
              (form_of " Brazil-2 " sample_record) fresh_app
              eq_refl eq_refl (Forall_nil _)) as (db' & _ & -> & _).
  reflexivity.
Defined.

(** ** Restarting *)

(** X17: after [add_country] with an accepted name and indicators that fit
    64-bit integers, a restart, which fills the registry by [load_data],
    finds the table readable and gives a registry that answers every lookup
    as the registry before the restart did; the added record is there. *)
Theorem restart_after_add (builtin_sum : list float -> float) (now : string)
    (f : form) (a : app) :
  let stored := strip (country_name f) in
  let a' := fst (add_country builtin_sum now f a) in
  in_sync a ->
  name_accepted stored = true ->
  forallb fits_int64 (indicators (country_of_form stored f)) = true ->
  exists restarted : app,
    load_data a' = Some restarted /\
    db restarted = db a' /\
    (forall key, dict_get (countries restarted) key = dict_get (countries a') key) /\
    dict_get (countries restarted) stored = Some (country_of_form stored f).
Proof.
  intros stored a' Hsync Hname Hfits.
  destruct (add_country_in_sync builtin_sum now f a Hsync Hname Hfits)
    as [(loaded & Hload & Hlookup) Hget].
  fold a' stored in Hload, Hlookup, Hget.
  exists {| countries := loaded; db := db a' |}.
  unfold load_data. rewrite Hload. cbn [mbind option_bind countries db].
  split; [reflexivity|]. split; [reflexivity|]. split.
  - intros key. symmetry. apply Hlookup.
  - rewrite <- Hlookup. exact Hget.
Qed.

Lemma restart_after_add_witness :
  exists restarted : app,
    load_data (fst (add_country PyFloat.sum "2024-01-01 00:00:00"
                      (form_of " Brazil-2 " sample_record) fresh_app)) =
      Some restarted /\
    dict_get (countries restarted) "Brazil-2" = Some sample_record.
Proof.
  destruct (restart_after_add PyFloat.sum "2024-01-01 00:00:00"
              (form_of " Brazil-2 " sample_record) fresh_app
              in_sync_fresh_app eq_refl eq_refl)
    as (restarted & Hload & _ & _ & Hget).
  exists restarted. split; [exact Hload|exact Hget].
Defined.

(** ** Scores and category sums *)

Definition category_sums (c : CountryData) : list Z :=
  [ int_sum (dataclass_field_values (PoliticalStability (political_stability c)));
    int_sum (dataclass_field_values (SecurityEnvironment (security_environment c)));
    int_sum (dataclass_field_values (EconomicStability (economic_stability c)));
    int_sum (dataclass_field_values (SocialIndicators (social_indicators c)));
    int_sum (dataclass_field_values (IllicitMarkets (illicit_markets c))) ].

Lemma calculate_category_score_sum (cm : Metrics) :
  calculate_category_score (Some cm) =
  PyFloat.int_truediv (int_sum (dataclass_field_values cm))
    (match cm with IllicitMarkets _ => 6 | _ => 4 end).
Proof. destruct cm; reflexivity. Qed.

(** X18: the score, the level, the description and the colour of a record
    depend on its indicators through the five category sums only: two
    records with the same sums, whatever their names, notes and the
    distribution of the values inside a category, get the same results. *)
Theorem score_depends_on_category_sums (builtin_sum : list float -> float)
    (c c' : CountryData) :
  category_sums c = category_sums c' ->
  calculate_threat_score builtin_sum c = calculate_threat_score builtin_sum c' /\
  get_threat_level builtin_sum c = get_threat_level builtin_sum c' /\
  get_threat_description builtin_sum c = get_threat_description builtin_sum c' /\
  get_threat_color builtin_sum c = get_threat_color builtin_sum c'.
Proof.
  intros Hsums. unfold category_sums in Hsums.
  injection Hsums as H1 H2 H3 H4 H5.
  assert (Hscore : calculate_threat_score builtin_sum c =
                   calculate_threat_score builtin_sum c').
  { unfold calculate_threat_score.
    rewrite !calculate_category_score_sum. cbn [dataclass_field_values].
    rewrite H1, H2, H3, H4, H5. reflexivity. }
  unfold get_threat_description, get_threat_color, get_threat_level.
  rewrite Hscore. repeat split.
Qed.

Lemma score_depends_on_category_sums_witness :
  get_threat_level PyFloat.sum sample_record =
  get_threat_level PyFloat.sum
    {| name := "Permuted";
       political_stability := Build_PoliticalStabilityMetrics 3 5 6 4;
       security_environment := Build_SecurityEnvironmentMetrics 10 10 1 1;
       economic_stability := Build_EconomicStabilityMetrics 5 5 5 5;
       social_indicators := Build_SocialIndicatorsMetrics 4 5 7 6;
       illicit_markets := Build_IllicitMarketsMetrics 5 6 7 5 6 8;
       key_risk_factors := "";
       trend_analysis := "";
       recommendations := "" |}.
Proof.
  apply (score_depends_on_category_sums PyFloat.sum sample_record). reflexivity.
Defined.
